(** * Single-select checkbox groups of app.py

    A shallow embedding of the selection logic of [app.py]: the two
    checkbox tables (1.7 Interface Planning, 2.3 Integrity/Security Focus),
    the recommendation table that links them, the two quick-action buttons
    and the selection cells of the exported document.

    [st.session_state] is modelled as a finite map from widget keys to the
    boolean stored under them.  A checkbox returns the value stored under
    its key ([False] when nothing is stored).  Reading with [get] always
    succeeds.  An assignment [st.session_state[key] = value] succeeds as long
    as no widget with that key has been instantiated in the current run;
    after that Streamlit raises [StreamlitAPIException], which ends the run
    and leaves the session state as it is.  [st.rerun()] restarts the script
    from the top with no button pressed.  What ReportLab does with the cells
    it is given is outside the model. *)

From Stdlib Require Import Ascii String DecimalString.
From Stdlib Require DecimalNat.
From stdpp Require Import base option list strings gmap fin_maps.

Open Scope string_scope.

(** ** Python values that reach the selection code *)

(** Truthiness of an [Optional[str]]: [None] and the empty string are falsy. *)
Definition truthy_str (v : option string) : bool :=
  match v with
  | None => false
  | Some s => negb (bool_decide (s = ""))
  end.

(** Truthiness of [st.session_state.get(k)]: [None] and [False] are falsy. *)
Definition truthy_flag (v : option bool) : bool :=
  match v with
  | Some b => b
  | None => false
  end.

(** ** Tables *)

Record PlanRow := {
  Gap : string;
  Description : string;
  Suggested_Interface_Type : string;
  Suggested_Fix : string;
  Reference : string
}.

Record IntegrityRow := {
  Area : string;
  Plain_Meaning : string;
  Likely_Gap : string;
  Improvement : string;
  Standards : string
}.

Global Instance PlanRow_eq_dec : EqDecision PlanRow.
Proof. solve_decision. Defined.

Global Instance IntegrityRow_eq_dec : EqDecision IntegrityRow.
Proof. solve_decision. Defined.

Definition PLAN_ROWS : list PlanRow := [
  {| Gap := "Data Silos";
     Description := "EHR and PACS store data separately; clinicians must open two systems.";
     Suggested_Interface_Type := "Interface Engine (Middleware)";
     Suggested_Fix := "Add/Optimize Interface Engine";
     Reference := "CMS Criterion 3 – Data Availability" |};
  {| Gap := "Inconsistent Patient IDs";
     Description := "IDs differ in format/structure (e.g., “12345” vs “0012345”).";
     Suggested_Interface_Type := "Interface Engine (Middleware)";
     Suggested_Fix := "Implement MPI";
     Reference := "CMS Criterion 5 – Identity & Trust" |};
  {| Gap := "Missing Clinical Context";
     Description := "Imaging data lacks clinical notes or order linkage.";
     Suggested_Interface_Type := "Interface Engine (Middleware)";
     Suggested_Fix := "Map HL7→DICOM Metadata";
     Reference := "ONC §170.315(b) – Transitions of Care" |};
  {| Gap := "No FHIR Connection";
     Description := "Legacy EHR cannot use FHIR APIs for modern data exchange.";
     Suggested_Interface_Type := "FHIR API";
     Suggested_Fix := "Enable/Upgrade EHR FHIR";
     Reference := "ONC §170.315(g)(10) – API Exchange" |};
  {| Gap := "Data Integrity & Security";
     Description := "Lack of audit trails or accuracy checks between systems.";
     Suggested_Interface_Type := "Interface Engine (Middleware)";
     Suggested_Fix := "Enable audit logs & integrity checks; shared audit trail";
     Reference := "ONC §170.315(d)(9); CMS Criterion 5 – Identity & Trust" |}
].

Definition INTEGRITY_ROWS : list IntegrityRow := [
  {| Area := "Data Accuracy (Integrity)";
     Plain_Meaning := "Ensure information stays correct and unchanged during transfer/storage.";
     Likely_Gap := "EHR/PACS show mismatched IDs/dates; altered payloads not detected.";
     Improvement := "Enable message checksums/hashes; verify accession/MRN on receipt.";
     Standards := "ONC §170.315(d)(9); HIPAA 164.312(c)(1)" |};
  {| Area := "Access Tracking (Audit Logs)";
     Plain_Meaning := "Record who viewed/edited data to support privacy & accountability.";
     Likely_Gap := "Separate, incomplete audit trails; clocks not synchronized.";
     Improvement := "Unified audit (engine/SIEM), unique IDs, NTP time sync, regular review.";
     Standards := "ONC §170.315(d); HIPAA 164.312(b); CMS Identity/Security/Trust" |};
  {| Area := "Error Detection & Alerts";
     Plain_Meaning := "Detect and surface failed transfers quickly.";
     Likely_Gap := "Orders/results fail silently; no retry queues or alerts.";
     Improvement := "ACK/NACK monitoring, retries, routed alerts to on-call IT/imaging.";
     Standards := "AHRQ Evaluation (data quality); supports CMS Data Availability" |};
  {| Area := "Patient Identity Management (MPI)";
     Plain_Meaning := "One accurate identity across systems.";
     Likely_Gap := "Duplicate/mismatched MRNs; weak demographic matching.";
     Improvement := "Implement/strengthen MPI; matching thresholds; periodic deduping.";
     Standards := "CMS Identity & Trust" |}
].

Definition RECOMMENDED_INTEGRITY : gmap string string :=
  list_to_map [
    ("Data Silos", "Access Tracking (Audit Logs)");
    ("Inconsistent Patient IDs", "Patient Identity Management (MPI)");
    ("Missing Clinical Context", "Data Accuracy (Integrity)");
    ("No FHIR Connection", "Error Detection & Alerts");
    ("Data Integrity & Security", "Data Accuracy (Integrity)")
  ].

(** ** Utilities *)

(** The character class [[A-Za-z0-9_]] of [slug]'s pattern. *)
Definition is_slug_char (c : ascii) : bool :=
  let n := nat_of_ascii c in
  (((65 <=? n) && (n <=? 90)) || ((97 <=? n) && (n <=? 122))
   || ((48 <=? n) && (n <=? 57)) || (n =? 95))%nat.

(** [re.sub(r'[^A-Za-z0-9_]+', '_', s)]: every maximal run of characters
    outside the class becomes one underscore.  [in_run] records that the
    previous character was already replaced. *)
Fixpoint slug_from (in_run : bool) (s : string) : string :=
  match s with
  | EmptyString => EmptyString
  | String c rest =>
      if is_slug_char c then String c (slug_from false rest)
      else if in_run then slug_from true rest
      else String "_"%char (slug_from true rest)
  end.

Definition slug (s : string) : string := slug_from false s.

(** [str(i)] for a row index. *)
Definition str_of_index (i : nat) : string :=
  NilEmpty.string_of_uint (Nat.to_uint i).

(** [f"plan_row_{i}_{slug(row['Gap'])}"] *)
Definition plan_key (i : nat) (row : PlanRow) : string :=
  "plan_row_" ++ str_of_index i ++ "_" ++ slug (Gap row).

(** [f"p2_integrity_{i}_{slug(row['Area'])}"] *)
Definition integrity_key (i : nat) (row : IntegrityRow) : string :=
  "p2_integrity_" ++ str_of_index i ++ "_" ++ slug (Area row).

(** [enumerate(rows)] *)
Definition enumerate {A} (rows : list A) : list (nat * A) :=
  imap (λ i row, (i, row)) rows.

(** The key of an enumerated row, and the keys of each table. *)
Definition plan_row_key (ir : nat * PlanRow) : string := plan_key ir.1 ir.2.
Definition integrity_row_key (ir : nat * IntegrityRow) : string :=
  integrity_key ir.1 ir.2.

Definition plan_keys : list string := plan_row_key <$> enumerate PLAN_ROWS.
Definition integrity_keys : list string :=
  integrity_row_key <$> enumerate INTEGRITY_ROWS.

(** ** Session state and widgets *)

Abbreviation session_state := (gmap string bool).

(** [st.session_state.get(key, False)] *)
Definition session_get (ss : session_state) (key : string) : bool :=
  default false (ss !! key).

(** [st.checkbox("", key=key)]: the value stored under the widget's key. *)
Definition checkbox (ss : session_state) (key : string) : bool :=
  session_get ss key.

(** A click on the checkbox stored under [key] flips its value; the script
    then runs again. *)
Definition click_checkbox (key : string) (ss : session_state) : session_state :=
  <[key := negb (checkbox ss key)]> ss.

(** How a block of the script ends. *)
Inductive status := Completed | StreamlitAPIException.

Global Instance status_eq_dec : EqDecision status.
Proof. solve_decision. Defined.

(** [st.session_state[key] = value] in a run in which the widgets with the
    keys [drawn] have already been instantiated. *)
Definition session_assign (drawn : list string) (key : string) (value : bool)
    (ss : session_state) : session_state * status :=
  if bool_decide (key ∈ drawn) then (ss, StreamlitAPIException)
  else (<[key := value]> ss, Completed).

(** [reset_other_checkboxes(checked_keys, keep_key)]: the loop ends at the
    first assignment that raises. *)
Fixpoint reset_other_checkboxes (drawn : list string) (checked_keys : list string)
    (keep_key : string) (ss : session_state) : session_state * status :=
  match checked_keys with
  | [] => (ss, Completed)
  | k :: rest =>
      if negb (bool_decide (k = keep_key)) && truthy_flag (ss !! k) then
        match session_assign drawn k false ss with
        | (ss', Completed) => reset_other_checkboxes drawn rest keep_key ss'
        | (ss', StreamlitAPIException) => (ss', StreamlitAPIException)
        end
      else reset_other_checkboxes drawn rest keep_key ss
  end.

(** The block shared by both tables:
    [if len(checked_keys) > 1: st.warning(...); keep_key = checked_keys[0];
     reset_other_checkboxes(checked_keys, keep_key)].
    The boolean tells whether the warning was shown. *)
Definition keep_first_checked (drawn : list string) (checked_keys : list string)
    (ss : session_state) : session_state * bool * status :=
  match checked_keys with
  | keep_key :: _ :: _ =>
      let '(ss', st) := reset_other_checkboxes drawn checked_keys keep_key ss in
      (ss', true, st)
  | _ => (ss, false, Completed)
  end.

(** ** 1.7 Interface Planning *)

(** First loop over [enumerate(PLAN_ROWS)]: collects [checked_keys]
    ([chosen_idx] is never read afterwards and is left out). *)
Definition plan_checked_loop (ss : session_state) (rows : list (nat * PlanRow))
    : list string :=
  foldl (λ checked_keys ir,
           let key := plan_key ir.1 ir.2 in
           if checkbox ss key then (checked_keys ++ [key])%list else checked_keys)
        [] rows.

(** Second loop: the first row whose key is set, then [break]. *)
Fixpoint plan_selected_loop (ss : session_state) (rows : list (nat * PlanRow))
    : option PlanRow :=
  match rows with
  | [] => None
  | ir :: rest =>
      if truthy_flag (ss !! plan_key ir.1 ir.2) then Some ir.2
      else plan_selected_loop ss rest
  end.

(** Lines 616-634: the checkboxes of the table are drawn, then the
    single-select block runs. *)
Definition plan_section (ss : session_state) : session_state * bool * status :=
  let checked_keys := plan_checked_loop ss (enumerate PLAN_ROWS) in
  keep_first_checked plan_keys checked_keys ss.

(** ** 2.3 Integrity/Security Focus *)

(** [RECOMMENDED_INTEGRITY.get(plan_selected["Gap"]) if plan_selected else None] *)
Definition recommended_area_of (plan_selected : option PlanRow) : option string :=
  match plan_selected with
  | Some row => RECOMMENDED_INTEGRITY !! Gap row
  | None => None
  end.

(** Body of the "Use recommended" button. *)
Definition use_recommended (recommended_area : option string) (ss : session_state)
    : session_state :=
  foldl (λ st ir,
           <[integrity_key ir.1 ir.2 :=
               bool_decide (Some (Area ir.2) = recommended_area)]> st)
        ss (enumerate INTEGRITY_ROWS).

(** Body of the "Clear selection" button. *)
Definition clear_selection (ss : session_state) : session_state :=
  foldl (λ st ir, <[integrity_key ir.1 ir.2 := false]> st)
        ss (enumerate INTEGRITY_ROWS).

(** The loop over [enumerate(INTEGRITY_ROWS)]: collects
    [integrity_checked_keys] and assigns [selected_area] at every row whose
    key is set. *)
Definition integrity_loop (ss : session_state) (rows : list (nat * IntegrityRow))
    : list string * option string :=
  foldl (λ acc ir,
           let key := integrity_key ir.1 ir.2 in
           (if checkbox ss key then (acc.1 ++ [key])%list else acc.1,
            if session_get ss key then Some (Area ir.2) else acc.2))
        ([], None) rows.

(** [x if x else y] on an optional string. *)
Definition or_else (x : option string) (y : string) : string :=
  match x with
  | Some s => if bool_decide (s = "") then y else s
  | None => y
  end.

(** [selected_area if selected_area else
     (recommended_area if recommended_area else "— select —")] *)
Definition p2_integrity_of (selected_area recommended_area : option string) : string :=
  or_else selected_area (or_else recommended_area "— select —").

(** Lines 711-749: by now the checkboxes of both tables are drawn. *)
Definition integrity_section (ss : session_state)
    : session_state * bool * status * option string :=
  let '(integrity_checked_keys, selected_area) :=
    integrity_loop ss (enumerate INTEGRITY_ROWS) in
  let '(ss1, warning, st) :=
    keep_first_checked (plan_keys ++ integrity_keys)%list integrity_checked_keys ss in
  (ss1, warning, st, selected_area).

(** ** Export *)

Inductive pyval :=
| PyStr (s : string)
| PyBool (b : bool).

Global Instance pyval_eq_dec : EqDecision pyval.
Proof. solve_decision. Defined.

Definition truthy_val (v : pyval) : bool :=
  match v with
  | PyStr s => negb (bool_decide (s = ""))
  | PyBool b => b
  end.

(** [sel_or_dash] inside [build_pdf]; [None] stands for Python's [None]. *)
Definition sel_or_dash (val : option pyval) : pyval :=
  match val with
  | Some v =>
      if truthy_val v
         && negb (bool_decide (v ∈ [PyStr "— select —"; PyStr "— choose —"]))
      then v else PyStr "—"
  | None => PyStr "—"
  end.

(** The two tables of [build_pdf] that depend on [selections]: the rows
    passed to [make_table] for 1.7 and for 2.3.  The static text, the
    appendix and the layout done by [P] and [make_table] are not modelled. *)
Record pdf_tables := {
  table_17 : list (list pyval);
  table_23 : list (list pyval)
}.

Definition build_pdf (selections : gmap string pyval) : pdf_tables :=
  let plan_gap := sel_or_dash (selections !! "plan_gap") in
  let plan_iface := sel_or_dash (selections !! "plan_iface") in
  let plan_fix := sel_or_dash (selections !! "plan_fix") in
  let plan_ref := sel_or_dash (selections !! "plan_ref") in
  {| table_17 := [ [PyStr "Gap"; plan_gap];
                   [PyStr "Suggested Interface Type"; plan_iface];
                   [PyStr "Suggested Fix"; plan_fix];
                   [PyStr "Standard Reference"; plan_ref] ];
     table_23 := [ [PyStr "Integrity/Security Focus";
                    sel_or_dash (selections !! "p2_integrity")] ] |}.

(** The [selections] dictionary built at the end of the script. *)
Definition selections_of (plan_selected : option PlanRow) (p2_integrity : string)
    (include_all_options : bool) : gmap string pyval :=
  let '(plan_gap, plan_iface, plan_fix, plan_ref) :=
    match plan_selected with
    | Some row => (Gap row, Suggested_Interface_Type row, Suggested_Fix row, Reference row)
    | None => ("— choose —", "— select —", "— choose —", "—")
    end in
  <["include_all_options" := PyBool include_all_options]>
  (<["p2_integrity" := PyStr p2_integrity]>
  (<["plan_ref" := PyStr plan_ref]>
  (<["plan_fix" := PyStr plan_fix]>
  (<["plan_iface" := PyStr plan_iface]>
  (<["plan_gap" := PyStr plan_gap]> ∅))))).

(** ** The script *)

Inductive button := NoButton | UseRecommended | ClearSelection | GeneratePDF.

Global Instance button_eq_dec : EqDecision button.
Proof. solve_decision. Defined.

(** What one run of the script shows and hands to the export. *)
Record page := {
  plan_warning : bool;
  plan_selected : option PlanRow;
  recommended_area : option string;
  integrity_warning : bool;
  selected_area : option string;
  p2_integrity : string;
  selections : gmap string pyval;
  pdf : option pdf_tables
}.

(** How a run of the script ends: at its last line, or with the exception
    raised by line 634 (after the warning of line 632, before
    [plan_selected] is assigned), or with the exception raised by line 749
    (after the warning of line 747, with [plan_selected] and [selected_area]
    assigned and before [p2_integrity] is). *)
Inductive outcome :=
| Finished (ss : session_state) (pg : page)
| RaisedInPlan (ss : session_state)
| RaisedInIntegrity (ss : session_state) (plan_sel : option PlanRow)
    (sel_area : option string).

(** The session state a run leaves. *)
Definition outcome_state (o : outcome) : session_state :=
  match o with
  | Finished ss _ => ss
  | RaisedInPlan ss => ss
  | RaisedInIntegrity ss _ _ => ss
  end.

(** The script from the 2.3 table to its end (no quick-action button took
    effect in this run). *)
Definition script_tail (pressed : button) (include_all_options : bool)
    (plan_warn : bool) (plan_sel : option PlanRow) (ss : session_state)
    : outcome :=
  let rec_area := recommended_area_of plan_sel in
  let '(ss1, warn, st, sel_area) := integrity_section ss in
  match st with
  | StreamlitAPIException => RaisedInIntegrity ss1 plan_sel sel_area
  | Completed =>
      let p2 := p2_integrity_of sel_area rec_area in
      let sels := selections_of plan_sel p2 include_all_options in
      Finished ss1 {| plan_warning := plan_warn;
                      plan_selected := plan_sel;
                      recommended_area := rec_area;
                      integrity_warning := warn;
                      selected_area := sel_area;
                      p2_integrity := p2;
                      selections := sels;
                      pdf := if bool_decide (pressed = GeneratePDF)
                             then Some (build_pdf sels) else None |}
  end.

(** A run in which no button is pressed; this is also what [st.rerun()]
    starts. *)
Definition rerun (include_all_options : bool) (ss : session_state) : outcome :=
  let '(ss1, plan_warn, st) := plan_section ss in
  match st with
  | StreamlitAPIException => RaisedInPlan ss1
  | Completed =>
      script_tail NoButton include_all_options plan_warn
        (plan_selected_loop ss1 (enumerate PLAN_ROWS)) ss1
  end.

(** One run of the script.  [st.button("Use recommended",
    disabled=not recommended_area)] is true only when the button is enabled
    and was pressed.  The two buttons write the keys of the 2.3 table before
    its checkboxes are drawn. *)
Definition script (pressed : button) (include_all_options : bool)
    (ss : session_state) : outcome :=
  let '(ss1, plan_warn, st) := plan_section ss in
  match st with
  | StreamlitAPIException => RaisedInPlan ss1
  | Completed =>
      let plan_sel := plan_selected_loop ss1 (enumerate PLAN_ROWS) in
      let rec_area := recommended_area_of plan_sel in
      if bool_decide (pressed = UseRecommended) && truthy_str rec_area then
        rerun include_all_options (use_recommended rec_area ss1)
      else if bool_decide (pressed = ClearSelection) then
        rerun include_all_options (clear_selection ss1)
      else
        script_tail pressed include_all_options plan_warn plan_sel ss1
  end.

(** ** A session: one run of the script per user action *)

Inductive event :=
| Toggle (key : string)            (* a click on the checkbox stored under [key] *)
| Observe (batch : session_state)  (* the widgets report the values of [batch] *)
| Press (b : button)
| ToggleAppendix.                  (* the "include an appendix" checkbox *)

(** The state kept between runs: the session state and the value of the
    appendix checkbox.  A step returns them with the outcome of its run. *)
Definition step (e : event) (st : session_state * bool)
    : session_state * bool * outcome :=
  let '(ss, include_all_options) := st in
  match e with
  | Toggle key =>
      let o := script NoButton include_all_options (click_checkbox key ss) in
      (outcome_state o, include_all_options, o)
  | Observe batch =>
      let o := script NoButton include_all_options (batch ∪ ss) in
      (outcome_state o, include_all_options, o)
  | Press b =>
      let o := script b include_all_options ss in
      (outcome_state o, include_all_options, o)
  | ToggleAppendix =>
      let o := script NoButton (negb include_all_options) ss in
      (outcome_state o, negb include_all_options, o)
  end.

(** The first run of a session starts from an empty session state. *)
Definition first_load : session_state * bool * outcome :=
  let o := script NoButton false ∅ in (outcome_state o, false, o).

Definition session (events : list event) : session_state * bool * outcome :=
  foldl (λ cur e, step e cur.1) first_load events.

(** ** Views used in the statements *)

(** The rows of a table whose checkbox is set in [ss], in table order. *)
Definition checked_rows {A} (key : A → string) (ss : session_state)
    (rows : list A) : list A :=
  filter (λ r, checkbox ss (key r)) rows.

(** The keys collected by a table's loop. *)
Definition checked_keys_of {A} (key : A → string) (rows : list A)
    (ss : session_state) : list string :=
  key <$> checked_rows key ss rows.

(** The identifiers of the 2.3 table. *)
Definition integrity_areas : list string := Area <$> INTEGRITY_ROWS.

(** The rows of each table that a session state reports as checked. *)
Definition plan_checked (ss : session_state) : list (nat * PlanRow) :=
  checked_rows plan_row_key ss (enumerate PLAN_ROWS).

Definition integrity_checked (ss : session_state) : list (nat * IntegrityRow) :=
  checked_rows integrity_row_key ss (enumerate INTEGRITY_ROWS).

(** The session state on which the 2.3 table runs: the state the run
    started from, rewritten by a quick action when one takes effect. *)
Definition integrity_input (pressed : button) (ss : session_state) : session_state :=
  let rec_area := recommended_area_of (snd <$> head (plan_checked ss)) in
  if bool_decide (pressed = UseRecommended) && truthy_str rec_area then
    use_recommended rec_area ss
  else if bool_decide (pressed = ClearSelection) then clear_selection ss
  else ss.

(** The page of a run that reaches its last line, read off the state the
    run started from. *)
Definition page_of (pressed : button) (include_all_options : bool)
    (ss : session_state) : page :=
  let plan_sel := snd <$> head (plan_checked ss) in
  let rec_area := recommended_area_of plan_sel in
  let sel_area :=
    (λ ir, Area ir.2) <$> last (integrity_checked (integrity_input pressed ss)) in
  let p2 := p2_integrity_of sel_area rec_area in
  let sels := selections_of plan_sel p2 include_all_options in
  {| plan_warning := false;
     plan_selected := plan_sel;
     recommended_area := rec_area;
     integrity_warning := false;
     selected_area := sel_area;
     p2_integrity := p2;
     selections := sels;
     pdf := if bool_decide (pressed = GeneratePDF)
            then Some (build_pdf sels) else None |}.

(** The page of a run, when it has one. *)
Definition outcome_page (o : outcome) : option page :=
  match o with
  | Finished _ pg => Some pg
  | _ => None
  end.

(** The plan selection a run assigned, when it got that far. *)
Definition outcome_plan_selected (o : outcome) : option (option PlanRow) :=
  match o with
  | Finished _ pg => Some (plan_selected pg)
  | RaisedInPlan _ => None
  | RaisedInIntegrity _ plan_sel _ => Some plan_sel
  end.


(** An outcome with one more value in the session state it leaves. *)
Definition outcome_insert (k : string) (v : bool) (o : outcome) : outcome :=
  match o with
  | Finished ss pg => Finished (<[k := v]> ss) pg
  | RaisedInPlan ss => RaisedInPlan (<[k := v]> ss)
  | RaisedInIntegrity ss plan_sel sel_area =>
      RaisedInIntegrity (<[k := v]> ss) plan_sel sel_area
  end.

(** A page without the exported document. *)
Definition without_pdf (pg : page) : page :=
  {| plan_warning := plan_warning pg;
     plan_selected := plan_selected pg;
     recommended_area := recommended_area pg;
     integrity_warning := integrity_warning pg;
     selected_area := selected_area pg;
     p2_integrity := p2_integrity pg;
     selections := selections pg;
     pdf := None |}.

(** The events that change no key of the 1.7 table. *)
Definition leaves_plan_keys (e : event) : Prop :=
  match e with
  | Toggle key => key ∉ plan_keys
  | Observe batch => Forall (λ k, batch !! k = None) plan_keys
  | Press _ | ToggleAppendix => True
  end.

(** [recommendedSelection] as the specification words it: the identifier the
    rule maps the other group's selection to, when that identifier is one of
    this group's options, and empty otherwise. *)
Definition recommendedSelection_spec (rule : gmap string string)
    (group : list string) (otherGroupSelection : option string) : option string :=
  match otherGroupSelection with
  | Some other =>
      match rule !! other with
      | Some y => if bool_decide (y ∈ group) then Some y else None
      | None => None
      end
  | None => None
  end.

(** ** What the script draws and exports besides the page record *)

(** A double quote, for the HTML literals. *)
Definition dquote : string := String "034"%char "".

(** [badge_html] *)
Definition badge_html : string :=
  "<span class=" ++ dquote ++ "badge-rec" ++ dquote ++ ">Recommended</span>".

(** [f'<div class="select-cell">{"".join(parts)}</div>'] *)
Definition sel_html (parts : list string) : string :=
  "<div class=" ++ dquote ++ "select-cell" ++ dquote ++ ">"
  ++ String.concat "" parts ++ "</div>".

(** The loop over [enumerate(INTEGRITY_ROWS)] with what it draws in the
    Select column: [selected_area] is updated first, then the row's
    [parts] are computed from it. *)
Definition integrity_cells_loop (ss : session_state)
    (recommended_area : option string) (rows : list (nat * IntegrityRow))
    : option string * list (list string) :=
  foldl (λ acc ir,
           let key := integrity_key ir.1 ir.2 in
           let selected_area :=
             if session_get ss key then Some (Area ir.2) else acc.1 in
           let is_selected := bool_decide (selected_area = Some (Area ir.2)) in
           let is_recommended :=
             negb (truthy_str selected_area)
             && bool_decide (recommended_area = Some (Area ir.2)) in
           let parts :=
             ((if is_selected then ["✅"] else [])
              ++ (if is_recommended then [badge_html] else []))%list in
           (selected_area, (acc.2 ++ [parts])%list))
        (None, []) rows.

(** The caption above the 2.3 table:
    [if not any(st.session_state.get(key, False) for ...) and recommended_area]. *)
Definition recommendation_caption (ss : session_state)
    (recommended_area : option string) : option string :=
  if negb (existsb (λ ir, session_get ss (integrity_key ir.1 ir.2))
             (enumerate INTEGRITY_ROWS))
     && truthy_str recommended_area
  then Some ("**Recommended based on your selected gap:** "
             ++ default "" recommended_area)
  else None.

(** The appendix of [build_pdf]: the rows passed to [make_table], when
    [selections.get("include_all_options")] is truthy. *)
Definition build_pdf_appendix (selections : gmap string pyval)
    : option (list (list pyval)) :=
  if from_option truthy_val false (selections !! "include_all_options") then
    Some (foldl (λ all_rows r,
                   let selected_mark :=
                     if bool_decide (Some (PyStr (Gap r)) = selections !! "plan_gap")
                        && bool_decide (Some (PyStr (Suggested_Interface_Type r))
                                        = selections !! "plan_iface")
                        && bool_decide (Some (PyStr (Suggested_Fix r))
                                        = selections !! "plan_fix")
                     then "✓" else "" in
                   (all_rows ++ [[PyStr (Gap r); PyStr (Suggested_Interface_Type r);
                                  PyStr (Suggested_Fix r); PyStr (Reference r);
                                  PyStr selected_mark]])%list)
                [] PLAN_ROWS)
  else None.

(** What row [i] of a table shows in its Select column, read off the
    session state: the check mark when its own box is set, and the badge
    when its area is the recommended one and no box is set in rows [0..i]. *)
Definition select_parts (ss : session_state) (recommended_area : option string)
    (rows : list (nat * IntegrityRow)) (i : nat) (ir : nat * IntegrityRow)
    : list string :=
  ((if checkbox ss (integrity_row_key ir) then ["✅"] else [])
   ++ (if bool_decide (checked_rows integrity_row_key ss (take (S i) rows) = [])
          && bool_decide (recommended_area = Some (Area ir.2))
       then [badge_html] else []))%list.

(** * Proofs *)

(** ** The widget keys *)

Example plan_keys_value :
  plan_keys = ["plan_row_0_Data_Silos"; "plan_row_1_Inconsistent_Patient_IDs";
               "plan_row_2_Missing_Clinical_Context"; "plan_row_3_No_FHIR_Connection";
               "plan_row_4_Data_Integrity_Security"].
Proof. reflexivity. Qed.

Example integrity_keys_value :
  integrity_keys = ["p2_integrity_0_Data_Accuracy_Integrity_";
                    "p2_integrity_1_Access_Tracking_Audit_Logs_";
                    "p2_integrity_2_Error_Detection_Alerts";
                    "p2_integrity_3_Patient_Identity_Management_MPI_"].
Proof. reflexivity. Qed.

(** ** Lists *)

Lemma filter_ext_in {A} (P1 P2 : A → Prop)
    `{!∀ x, Decision (P1 x), !∀ x, Decision (P2 x)} (l : list A) :
  (∀ x, x ∈ l → P1 x ↔ P2 x) → filter P1 l = filter P2 l.
Proof.
  induction l as [|a l IH]; intros Hiff; [done|].
  rewrite !filter_cons.
  rewrite IH by (intros x Hx; apply Hiff; by right).
  apply decide_ext, Hiff. by left.
Qed.

Lemma filter_fmap_key {A B} (f : A → B) (P : B → Prop)
    `{!∀ y, Decision (P y)} (l : list A) :
  filter P (f <$> l) = f <$> filter (λ x, P (f x)) l.
Proof.
  induction l as [|a l IH]; [done|].
  rewrite fmap_cons, !filter_cons, IH.
  destruct (decide (P (f a))); done.
Qed.

Lemma filter_none {A} (P : A → Prop) `{!∀ x, Decision (P x)} (l : list A) :
  (∀ x, x ∈ l → ¬ P x) → filter P l = [].
Proof.
  induction l as [|a l IH]; intros Hno; [done|].
  rewrite filter_cons_False by (apply Hno; by left).
  apply IH. intros x Hx. apply Hno. by right.
Qed.

Lemma filter_key_at_most_one {A B} `{EqDecision B} (f : A → B) (l : list A) y :
  NoDup (f <$> l) → (length (filter (λ x, f x = y) l) ≤ 1)%nat.
Proof.
  induction l as [|a l IH]; [simpl; lia|].
  rewrite fmap_cons, NoDup_cons. intros [Ha Hnd].
  rewrite filter_cons. destruct (decide (f a = y)) as [<-|]; [|by apply IH].
  rewrite filter_none; [simpl; lia|].
  intros x Hx Heq. apply Ha. rewrite <-Heq.
  by apply list_elem_of_fmap_2.
Qed.

Lemma last_short {A} (l : list A) : (length l ≤ 1)%nat → last l = head l.
Proof. destruct l as [|a [|a' l]]; simpl; [done..|lia]. Qed.

(** ** Checked rows *)

Lemma truthy_flag_lookup (ss : session_state) k :
  truthy_flag (ss !! k) = checkbox ss k.
Proof. reflexivity. Qed.

Lemma checked_keys_of_filter {A} (key : A → string) (rows : list A) ss :
  checked_keys_of key rows ss = filter (λ k, checkbox ss k) (key <$> rows).
Proof. unfold checked_keys_of, checked_rows. by rewrite filter_fmap_key. Qed.

Lemma elem_of_checked_keys {A} (key : A → string) (rows : list A) ss k :
  k ∈ checked_keys_of key rows ss ↔ k ∈ key <$> rows ∧ checkbox ss k.
Proof. rewrite checked_keys_of_filter, list_elem_of_filter. tauto. Qed.

(** The checked rows depend only on the table's own keys. *)
Lemma checked_rows_ext {A} (key : A → string) (rows : list A)
    (ss1 ss2 : session_state) :
  (∀ k, k ∈ key <$> rows → ss1 !! k = ss2 !! k) →
  checked_rows key ss1 rows = checked_rows key ss2 rows.
Proof.
  intros Heq. apply filter_ext_in. intros r Hr.
  unfold checkbox, session_get.
  by rewrite (Heq (key r)) by (by apply list_elem_of_fmap_2).
Qed.

(** ** Assignments to keys of drawn widgets *)

(** On keys of widgets that are all drawn the loop writes nothing: it
    raises at the first key, other than [keep_key], that is set. *)
Lemma reset_other_checkboxes_drawn drawn cks keep (ss : session_state) :
  Forall (λ k, k ∈ drawn) cks →
  reset_other_checkboxes drawn cks keep ss =
    (ss, if existsb (λ k, negb (bool_decide (k = keep)) && truthy_flag (ss !! k)) cks
         then StreamlitAPIException else Completed).
Proof.
  induction cks as [|k cks IH]; intros Hdrawn; [done|].
  apply Forall_cons in Hdrawn as [Hk Hdrawn]. cbn [reset_other_checkboxes existsb].
  destruct (negb (bool_decide (k = keep)) && truthy_flag (ss !! k)); simpl.
  - unfold session_assign. by rewrite bool_decide_true.
  - by apply IH.
Qed.

(** The single-select block as the script calls it: on distinct keys of
    drawn checkboxes that are all set. *)
Lemma keep_first_checked_drawn drawn cks (ss : session_state) :
  NoDup cks →
  Forall (λ k, k ∈ drawn) cks →
  Forall (λ k, truthy_flag (ss !! k) = true) cks →
  keep_first_checked drawn cks ss =
    (ss, bool_decide (1 < length cks)%nat,
     if bool_decide (1 < length cks)%nat then StreamlitAPIException else Completed).
Proof.
  intros Hnd Hdrawn Hset.
  destruct cks as [|k0 [|k1 cks]]; [done..|].
  unfold keep_first_checked. rewrite reset_other_checkboxes_drawn by done.
  rewrite (bool_decide_true (1 < _)%nat) by (simpl; lia).
  apply NoDup_cons in Hnd as [Hk0 _]. apply not_elem_of_cons in Hk0 as [Hne _].
  apply Forall_cons in Hset as [_ Hset]. apply Forall_cons in Hset as [Hk1 _].
  cbn [existsb].
  rewrite (bool_decide_true (k0 = k0)), (bool_decide_false (k1 = k0)), Hk1 by done.
  done.
Qed.

Lemma checked_keys_drawn {A} (key : A → string) (rows : list A) drawn
    (ss : session_state) :
  NoDup (key <$> rows) →
  (∀ k, k ∈ key <$> rows → k ∈ drawn) →
  keep_first_checked drawn (checked_keys_of key rows ss) ss =
    (ss, bool_decide (1 < length (checked_rows key ss rows))%nat,
     if bool_decide (1 < length (checked_rows key ss rows))%nat
     then StreamlitAPIException else Completed).
Proof.
  intros Hnd Hdrawn.
  rewrite keep_first_checked_drawn.
  - unfold checked_keys_of. by rewrite length_fmap.
  - rewrite checked_keys_of_filter. by apply NoDup_filter.
  - apply Forall_forall. intros k Hk.
    apply elem_of_checked_keys in Hk as [Hk _]. by apply Hdrawn.
  - apply Forall_forall. intros k Hk.
    apply elem_of_checked_keys in Hk as [_ Hk].
    rewrite truthy_flag_lookup. by destruct (checkbox ss k).
Qed.

(** ** The two tables *)

Lemma group_keys_NoDup : NoDup (plan_keys ++ integrity_keys).
Proof. apply (bool_decide_unpack _). by vm_compute. Qed.

Lemma plan_keys_NoDup : NoDup (plan_row_key <$> enumerate PLAN_ROWS).
Proof. by destruct (proj1 (NoDup_app _ _) group_keys_NoDup) as (? & _ & _). Qed.

Lemma integrity_keys_NoDup : NoDup (integrity_row_key <$> enumerate INTEGRITY_ROWS).
Proof. by destruct (proj1 (NoDup_app _ _) group_keys_NoDup) as (_ & _ & ?). Qed.

Lemma plan_integrity_keys_disjoint k : k ∈ plan_keys → k ∉ integrity_keys.
Proof. destruct (proj1 (NoDup_app _ _) group_keys_NoDup) as (_ & H & _). apply H. Qed.

Lemma plan_checked_loop_spec ss rows :
  plan_checked_loop ss rows = checked_keys_of plan_row_key rows ss.
Proof.
  unfold plan_checked_loop, checked_keys_of, checked_rows.
  induction rows as [|ir rows IH] using rev_ind; [done|].
  rewrite foldl_snoc, IH, filter_app, fmap_app, filter_cons, filter_nil.
  change (plan_key ir.1 ir.2) with (plan_row_key ir).
  by destruct (checkbox ss (plan_row_key ir)); simpl; rewrite ?app_nil_r.
Qed.

Lemma plan_selected_loop_spec ss rows :
  plan_selected_loop ss rows = snd <$> head (checked_rows plan_row_key ss rows).
Proof.
  unfold checked_rows.
  induction rows as [|ir rows IH]; [done|].
  simpl. rewrite filter_cons, IH, truthy_flag_lookup.
  change (plan_key ir.1 ir.2) with (plan_row_key ir).
  by destruct (checkbox ss (plan_row_key ir)).
Qed.

Lemma integrity_loop_spec ss rows :
  integrity_loop ss rows =
    (checked_keys_of integrity_row_key rows ss,
     (λ ir, Area ir.2) <$> last (checked_rows integrity_row_key ss rows)).
Proof.
  unfold integrity_loop, checked_keys_of, checked_rows.
  induction rows as [|ir rows IH] using rev_ind; [done|].
  rewrite foldl_snoc, IH, filter_app, fmap_app, filter_cons, filter_nil.
  change (integrity_key ir.1 ir.2) with (integrity_row_key ir).
  change (session_get ss (integrity_row_key ir))
    with (checkbox ss (integrity_row_key ir)).
  destruct (checkbox ss (integrity_row_key ir)); simpl.
  - by rewrite last_snoc.
  - by rewrite !app_nil_r.
Qed.

(** The 1.7 block never writes: it completes when at most one box is set
    and raises, after its warning, otherwise. *)
Lemma plan_section_spec ss :
  plan_section ss =
    (ss, bool_decide (1 < length (plan_checked ss))%nat,
     if bool_decide (1 < length (plan_checked ss))%nat
     then StreamlitAPIException else Completed).
Proof.
  unfold plan_section. rewrite plan_checked_loop_spec.
  apply (checked_keys_drawn plan_row_key); [apply plan_keys_NoDup|done].
Qed.

(** The 2.3 block never writes either; [selected_area] is the area of the
    last checked row. *)
Lemma integrity_section_spec ss :
  integrity_section ss =
    (ss, bool_decide (1 < length (integrity_checked ss))%nat,
     if bool_decide (1 < length (integrity_checked ss))%nat
     then StreamlitAPIException else Completed,
     (λ ir, Area ir.2) <$> last (integrity_checked ss)).
Proof.
  unfold integrity_section. rewrite integrity_loop_spec.
  rewrite (checked_keys_drawn integrity_row_key);
    [done|apply integrity_keys_NoDup|].
  intros k Hk. apply elem_of_app. by right.
Qed.

(** ** Writing one value per row *)

Section write_rows.
Context {A : Type} (key : A → string) (val : A → bool).

Lemma foldl_insert_frame (rows : list A) (ss : session_state) k :
  k ∉ key <$> rows →
  foldl (λ st r, <[key r := val r]> st) ss rows !! k = ss !! k.
Proof.
  revert ss. induction rows as [|r0 rows IH]; intros ss Hk; [done|].
  rewrite fmap_cons, not_elem_of_cons in Hk. destruct Hk as [Hne Hk].
  simpl. rewrite IH by done. by rewrite lookup_insert_ne.
Qed.

Lemma foldl_insert_set (rows : list A) (ss : session_state) r :
  NoDup (key <$> rows) → r ∈ rows →
  foldl (λ st r, <[key r := val r]> st) ss rows !! key r = Some (val r).
Proof.
  revert ss. induction rows as [|r0 rows IH]; intros ss Hnd Hr.
  { by apply elem_of_nil in Hr. }
  rewrite fmap_cons, NoDup_cons in Hnd. destruct Hnd as [Hr0 Hnd].
  simpl. apply elem_of_cons in Hr as [->|Hr].
  - rewrite foldl_insert_frame by done. by rewrite lookup_insert_eq.
  - by apply IH.
Qed.
End write_rows.

(** ** The recommendation table *)

Lemma integrity_areas_NoDup :
  NoDup ((λ ir : nat * IntegrityRow, Area ir.2) <$> enumerate INTEGRITY_ROWS).
Proof. apply (bool_decide_unpack _). by vm_compute. Qed.

Lemma RECOMMENDED_INTEGRITY_values g y :
  RECOMMENDED_INTEGRITY !! g = Some y → y ∈ integrity_areas ∧ y ≠ "".
Proof.
  intros Hg. apply elem_of_list_to_map_2 in Hg.
  repeat (apply elem_of_cons in Hg as [[= -> ->]|Hg];
          [split; [apply (bool_decide_unpack _); by vm_compute|done]|]).
  by apply elem_of_nil in Hg.
Qed.

Lemma PLAN_ROWS_recommended row :
  row ∈ PLAN_ROWS → is_Some (RECOMMENDED_INTEGRITY !! Gap row).
Proof.
  revert row. apply Forall_forall.
  apply (bool_decide_unpack _). by vm_compute.
Qed.

(** ** The quick actions *)

(** The two quick actions write the keys of the 2.3 table only. *)
Lemma use_recommended_frame rec_area (ss : session_state) k :
  k ∉ integrity_keys → use_recommended rec_area ss !! k = ss !! k.
Proof.
  apply (foldl_insert_frame integrity_row_key
           (λ ir, bool_decide (Some (Area ir.2) = rec_area))).
Qed.

Lemma clear_selection_frame (ss : session_state) k :
  k ∉ integrity_keys → clear_selection ss !! k = ss !! k.
Proof. apply (foldl_insert_frame integrity_row_key (λ _, false)). Qed.

Lemma use_recommended_set rec_area (ss : session_state) ir :
  ir ∈ enumerate INTEGRITY_ROWS →
  use_recommended rec_area ss !! integrity_row_key ir =
    Some (bool_decide (Some (Area ir.2) = rec_area)).
Proof.
  apply (foldl_insert_set integrity_row_key
           (λ ir, bool_decide (Some (Area ir.2) = rec_area))
           _ _ _ integrity_keys_NoDup).
Qed.

Lemma clear_selection_set (ss : session_state) ir :
  ir ∈ enumerate INTEGRITY_ROWS →
  clear_selection ss !! integrity_row_key ir = Some false.
Proof.
  apply (foldl_insert_set integrity_row_key (λ _, false)
           _ _ _ integrity_keys_NoDup).
Qed.

Lemma integrity_checked_use_recommended rec_area ss :
  integrity_checked (use_recommended rec_area ss) =
    filter (λ ir, Some (Area ir.2) = rec_area) (enumerate INTEGRITY_ROWS).
Proof.
  apply filter_ext_in. intros ir Hir. unfold checkbox, session_get.
  rewrite use_recommended_set by done. simpl. by rewrite bool_decide_spec.
Qed.

Lemma integrity_checked_clear_selection ss :
  integrity_checked (clear_selection ss) = [].
Proof.
  apply filter_none. intros ir Hir. unfold checkbox, session_get.
  rewrite clear_selection_set by done. simpl. tauto.
Qed.

Lemma filter_area_at_most_one rec_area :
  (length (filter (λ ir : nat * IntegrityRow, Some (Area ir.2) = rec_area)
             (enumerate INTEGRITY_ROWS)) ≤ 1)%nat.
Proof.
  apply (filter_key_at_most_one (λ ir : nat * IntegrityRow, Some (Area ir.2))).
  rewrite (list_fmap_compose (λ ir : nat * IntegrityRow, Area ir.2) Some).
  apply (NoDup_fmap_2 _), integrity_areas_NoDup.
Qed.

(** Writing keys of the other table does not change a table's checked rows. *)
Lemma plan_checked_ext ss1 ss2 :
  (∀ k, k ∈ plan_keys → ss1 !! k = ss2 !! k) → plan_checked ss1 = plan_checked ss2.
Proof. apply checked_rows_ext. Qed.


(** ** The script in terms of the checked rows *)

Lemma script_tail_spec pressed b plan_warn plan_sel ss :
  script_tail pressed b plan_warn plan_sel ss =
    let rec_area := recommended_area_of plan_sel in
    let sel_area := (λ ir, Area ir.2) <$> last (integrity_checked ss) in
    let p2 := p2_integrity_of sel_area rec_area in
    let sels := selections_of plan_sel p2 b in
    if bool_decide (1 < length (integrity_checked ss))%nat
    then RaisedInIntegrity ss plan_sel sel_area
    else Finished ss
           {| plan_warning := plan_warn;
              plan_selected := plan_sel;
              recommended_area := rec_area;
              integrity_warning := false;
              selected_area := sel_area;
              p2_integrity := p2;
              selections := sels;
              pdf := if bool_decide (pressed = GeneratePDF)
                     then Some (build_pdf sels) else None |}.
Proof.
  unfold script_tail. rewrite integrity_section_spec.
  by destruct (bool_decide (1 < length (integrity_checked ss))%nat).
Qed.

Lemma rerun_spec b ss :
  rerun b ss =
    if bool_decide (1 < length (plan_checked ss))%nat then RaisedInPlan ss
    else script_tail NoButton b false (snd <$> head (plan_checked ss)) ss.
Proof.
  unfold rerun. rewrite plan_section_spec.
  destruct (bool_decide (1 < length (plan_checked ss))%nat); [done|].
  by rewrite plan_selected_loop_spec.
Qed.

(** Keys outside the 2.3 table reach that table as the run found them. *)
Lemma integrity_input_frame pressed ss k :
  k ∉ integrity_keys → integrity_input pressed ss !! k = ss !! k.
Proof.
  intros Hk. unfold integrity_input. simpl.
  destruct (bool_decide (pressed = UseRecommended) && _).
  { by apply use_recommended_frame. }
  destruct (bool_decide (pressed = ClearSelection)); [|done].
  by apply clear_selection_frame.
Qed.

Lemma integrity_input_plan_checked pressed ss :
  plan_checked (integrity_input pressed ss) = plan_checked ss.
Proof.
  apply plan_checked_ext. intros k Hk.
  by apply integrity_input_frame, plan_integrity_keys_disjoint.
Qed.

(** A quick action leaves at most one box of the 2.3 table set. *)
Lemma integrity_input_action pressed ss :
  integrity_input pressed ss ≠ ss →
  (length (integrity_checked (integrity_input pressed ss)) ≤ 1)%nat.
Proof.
  unfold integrity_input. simpl.
  destruct (bool_decide (pressed = UseRecommended) && _).
  { intros _. rewrite integrity_checked_use_recommended.
    apply filter_area_at_most_one. }
  destruct (bool_decide (pressed = ClearSelection)); [|done].
  intros _. rewrite integrity_checked_clear_selection. simpl. lia.
Qed.

Lemma plan_checked_use_recommended rec_area ss :
  plan_checked (use_recommended rec_area ss) = plan_checked ss.
Proof.
  apply plan_checked_ext. intros k Hk.
  by apply use_recommended_frame, plan_integrity_keys_disjoint.
Qed.

Lemma plan_checked_clear_selection ss :
  plan_checked (clear_selection ss) = plan_checked ss.
Proof.
  apply plan_checked_ext. intros k Hk.
  by apply clear_selection_frame, plan_integrity_keys_disjoint.
Qed.

(** One run of the script: it raises in the 1.7 table when several of its
    boxes are set, else in the 2.3 table when several of its boxes are set,
    and otherwise reaches its last line. *)
Lemma script_spec pressed b ss :
  script pressed b ss =
    if bool_decide (1 < length (plan_checked ss))%nat then RaisedInPlan ss
    else if bool_decide
              (1 < length (integrity_checked (integrity_input pressed ss)))%nat
    then RaisedInIntegrity (integrity_input pressed ss)
           (snd <$> head (plan_checked ss))
           ((λ ir, Area ir.2) <$> last (integrity_checked (integrity_input pressed ss)))
    else Finished (integrity_input pressed ss) (page_of pressed b ss).
Proof.
  unfold script. rewrite plan_section_spec.
  destruct (bool_decide (1 < length (plan_checked ss))%nat) eqn:Hplan; [done|].
  rewrite plan_selected_loop_spec. fold (plan_checked ss).
  unfold page_of, integrity_input. cbv zeta.
  set (rec_area := recommended_area_of (snd <$> head (plan_checked ss))).
  destruct (bool_decide (pressed = UseRecommended)) eqn:Huse; cbn [andb].
  - apply bool_decide_eq_true in Huse as ->.
    destruct (truthy_str rec_area) eqn:Hrec.
    + rewrite rerun_spec, plan_checked_use_recommended, Hplan, script_tail_spec.
      done.
    + by rewrite script_tail_spec.
  - destruct (bool_decide (pressed = ClearSelection)) eqn:Hclear.
    + apply bool_decide_eq_true in Hclear as ->.
      rewrite rerun_spec, plan_checked_clear_selection, Hplan, script_tail_spec.
      done.
    + by rewrite script_tail_spec.
Qed.

(** What a run that reaches its last line started from. *)
Lemma script_finished pressed b ss ss' pg :
  script pressed b ss = Finished ss' pg →
  (length (plan_checked ss) ≤ 1)%nat
  ∧ (length (integrity_checked ss') ≤ 1)%nat
  ∧ ss' = integrity_input pressed ss
  ∧ pg = page_of pressed b ss.
Proof.
  rewrite script_spec.
  case_bool_decide as Hp; [done|]. case_bool_decide as Hi; [done|].
  intros [= <- <-]. repeat split; lia.
Qed.

Lemma script_finishes pressed b ss :
  (length (plan_checked ss) ≤ 1)%nat →
  (length (integrity_checked (integrity_input pressed ss)) ≤ 1)%nat →
  script pressed b ss = Finished (integrity_input pressed ss) (page_of pressed b ss).
Proof.
  intros Hp Hi. rewrite script_spec. by rewrite !bool_decide_false by lia.
Qed.


(** The session state a run leaves. *)
Lemma script_state pressed b ss :
  outcome_state (script pressed b ss) =
    if bool_decide (1 < length (plan_checked ss))%nat then ss
    else integrity_input pressed ss.
Proof. rewrite script_spec. by repeat case_bool_decide. Qed.

(** A run in which no quick action takes effect writes nothing. *)
Lemma script_no_action_state pressed b ss :
  pressed ≠ UseRecommended → pressed ≠ ClearSelection →
  outcome_state (script pressed b ss) = ss.
Proof.
  intros Huse Hclear. rewrite script_state. unfold integrity_input.
  rewrite (bool_decide_false (pressed = UseRecommended)),
    (bool_decide_false (pressed = ClearSelection)) by done.
  by case_bool_decide.
Qed.

(** ** Identifiers are never empty *)

Lemma integrity_rows_area ir :
  ir ∈ enumerate INTEGRITY_ROWS → Area ir.2 ∈ integrity_areas ∧ Area ir.2 ≠ "".
Proof.
  revert ir. apply Forall_forall.
  apply (bool_decide_unpack _). by vm_compute.
Qed.

Lemma last_checked_area ss x :
  (λ ir, Area ir.2) <$> last (integrity_checked ss) = Some x →
  x ∈ integrity_areas ∧ x ≠ "".
Proof.
  destruct (last (integrity_checked ss)) as [ir|] eqn:Hlast; [|done].
  intros [= <-]. apply integrity_rows_area.
  apply last_Some_elem_of in Hlast.
  by apply list_elem_of_filter in Hlast as [_ ?].
Qed.

Lemma recommended_area_of_valid plan_sel y :
  recommended_area_of plan_sel = Some y → y ∈ integrity_areas ∧ y ≠ "".
Proof.
  destruct plan_sel as [row|]; [|done]. apply RECOMMENDED_INTEGRITY_values.
Qed.

Lemma or_else_Some x y : x ≠ "" → or_else (Some x) y = x.
Proof. intros Hx. unfold or_else. by rewrite bool_decide_false. Qed.

Lemma enumerate_elem {A} (l : list A) (ix : nat * A) :
  ix ∈ enumerate l ↔ l !! ix.1 = Some ix.2.
Proof.
  unfold enumerate. rewrite elem_of_lookup_imap. split.
  - by intros (i & x & -> & ?).
  - intros Hl. exists ix.1, ix.2. by destruct ix.
Qed.

Lemma head_checked_plan_row ss row :
  snd <$> head (plan_checked ss) = Some row → row ∈ PLAN_ROWS.
Proof.
  destruct (head (plan_checked ss)) as [ir|] eqn:Hhead; [|done].
  intros [= <-]. apply head_Some_elem_of in Hhead.
  apply list_elem_of_filter in Hhead as [_ Hir].
  apply enumerate_elem in Hir. by eapply list_elem_of_lookup_2.
Qed.

Lemma integrity_area_row y :
  y ∈ integrity_areas → ∃ ir, ir ∈ enumerate INTEGRITY_ROWS ∧ Area ir.2 = y.
Proof.
  intros Hy. apply list_elem_of_fmap in Hy as (row & -> & Hrow).
  apply list_elem_of_lookup in Hrow as [i Hi].
  exists (i, row). split; [by apply enumerate_elem|done].
Qed.

(** The rows with a given area of the 2.3 table: exactly one. *)
Lemma filter_area_singleton y :
  y ∈ integrity_areas →
  ∃ ir, Area ir.2 = y ∧
    filter (λ ir : nat * IntegrityRow, Some (Area ir.2) = Some y)
      (enumerate INTEGRITY_ROWS) = [ir].
Proof.
  intros Hy. destruct (integrity_area_row y Hy) as (ir & Hir & Harea).
  exists ir. split; [done|].
  pose proof (filter_area_at_most_one (Some y)) as Hlen.
  assert (ir ∈ filter (λ ir : nat * IntegrityRow, Some (Area ir.2) = Some y)
                 (enumerate INTEGRITY_ROWS)) as Hin.
  { apply list_elem_of_filter. split; [by rewrite Harea|done]. }
  destruct (filter _ _) as [|a [|a' l]]; simpl in Hlen.
  - by apply elem_of_nil in Hin.
  - apply list_elem_of_singleton in Hin. by subst.
  - lia.
Qed.

Lemma sel_or_dash_area y :
  y ∈ integrity_areas → sel_or_dash (Some (PyStr y)) = PyStr y.
Proof.
  revert y. apply Forall_forall.
  apply (bool_decide_unpack _). by vm_compute.
Qed.

Lemma sel_or_dash_plan_row row :
  row ∈ PLAN_ROWS →
  sel_or_dash (Some (PyStr (Gap row))) = PyStr (Gap row)
  ∧ sel_or_dash (Some (PyStr (Suggested_Interface_Type row))) =
      PyStr (Suggested_Interface_Type row)
  ∧ sel_or_dash (Some (PyStr (Suggested_Fix row))) = PyStr (Suggested_Fix row)
  ∧ sel_or_dash (Some (PyStr (Reference row))) = PyStr (Reference row).
Proof.
  revert row. apply Forall_forall.
  apply (bool_decide_unpack _). by vm_compute.
Qed.

Lemma selections_of_lookups plan_sel p2 b :
  let sels := selections_of plan_sel p2 b in
  sels !! "p2_integrity" = Some (PyStr p2)
  ∧ sels !! "plan_gap" =
      Some (PyStr (from_option Gap "— choose —" plan_sel))
  ∧ sels !! "plan_iface" =
      Some (PyStr (from_option Suggested_Interface_Type "— select —" plan_sel))
  ∧ sels !! "plan_fix" =
      Some (PyStr (from_option Suggested_Fix "— choose —" plan_sel))
  ∧ sels !! "plan_ref" = Some (PyStr (from_option Reference "—" plan_sel)).
Proof.
  unfold selections_of. destruct plan_sel as [row|]; simpl;
    repeat split; by simplify_map_eq.
Qed.

(** * The claims *)

(** ** C10: the recommendation table *)

(** C10.  The recommendation table is total over the 1.7 table and valid for
    the 2.3 table: the Gap of every row of [PLAN_ROWS] is a key of
    [RECOMMENDED_INTEGRITY], every value of [RECOMMENDED_INTEGRITY] is the
    Area of a row of [INTEGRITY_ROWS], and so a selected plan row always
    has a non-empty recommendation that is an Area of the 2.3 table. *)
Theorem recommendation_table_total_and_valid (row : PlanRow) :
  row ∈ PLAN_ROWS →
  (∃ y, RECOMMENDED_INTEGRITY !! Gap row = Some y
        ∧ recommended_area_of (Some row) = Some y
        ∧ truthy_str (Some y) = true
        ∧ y ∈ integrity_areas)
  ∧ map_Forall (λ _ y, y ∈ integrity_areas) RECOMMENDED_INTEGRITY
  ∧ Forall (λ r, is_Some (RECOMMENDED_INTEGRITY !! Gap r)) PLAN_ROWS.
Proof.
  intros Hrow. split; [|split].
  - destruct (PLAN_ROWS_recommended row Hrow) as [y Hy]. exists y.
    destruct (RECOMMENDED_INTEGRITY_values _ _ Hy) as [Hin Hne].
    repeat split; try done.
    simpl. by rewrite bool_decide_false.
  - intros g y Hg. by apply (RECOMMENDED_INTEGRITY_values g).
  - apply Forall_forall, PLAN_ROWS_recommended.
Qed.

Lemma recommendation_table_total_and_valid_witness :
  let row := {| Gap := "No FHIR Connection";
                Description := "Legacy EHR cannot use FHIR APIs for modern data exchange.";
                Suggested_Interface_Type := "FHIR API";
                Suggested_Fix := "Enable/Upgrade EHR FHIR";
                Reference := "ONC §170.315(g)(10) – API Exchange" |} in
  row ∈ PLAN_ROWS ∧
  ∃ y, RECOMMENDED_INTEGRITY !! Gap row = Some y
       ∧ recommended_area_of (Some row) = Some y
       ∧ truthy_str (Some y) = true
       ∧ y ∈ integrity_areas.
Proof.
  intros row.
  assert (row ∈ PLAN_ROWS) as Hrow by (apply (bool_decide_unpack _); by vm_compute).
  split; [exact Hrow|].
  exact (proj1 (recommendation_table_total_and_valid row Hrow)).
Defined.

(** ** C6: the recommendation lookup *)

(** C6.  The recommendation is a function of the plan selection alone (it
    neither reads nor returns session state): it is the entry of
    [RECOMMENDED_INTEGRITY] under the selected row's Gap, it is returned
    exactly when it is an Area of the 2.3 table, and it is empty when no
    plan row is selected or the Gap is not a key of the table.  Every run of
    the script that shows a page reports the recommendation of the plan
    selection it reports. *)
Theorem recommended_area_refines_spec (plan_sel : option PlanRow)
    (pressed : button) (b : bool) (ss : session_state) :
  recommended_area_of plan_sel =
    recommendedSelection_spec RECOMMENDED_INTEGRITY integrity_areas (Gap <$> plan_sel)
  ∧ recommended_area_of None = None
  ∧ recommended_area <$> outcome_page (script pressed b ss) =
      (λ pg, recommended_area_of (plan_selected pg))
        <$> outcome_page (script pressed b ss).
Proof.
  split; [|split; [done|]].
  - destruct plan_sel as [row|]; [|done]. simpl.
    destruct (RECOMMENDED_INTEGRITY !! Gap row) as [y|] eqn:Hy; [|done].
    destruct (RECOMMENDED_INTEGRITY_values _ _ Hy) as [Hin _].
    by rewrite bool_decide_true.
  - rewrite script_spec. by repeat case_bool_decide.
Qed.

(** ** C3: the effective selection *)

(** What a finished run reports, read off the state it leaves. *)
Lemma finished_page pressed b ss ss' pg :
  script pressed b ss = Finished ss' pg →
  (length (plan_checked ss') ≤ 1)%nat
  ∧ (length (integrity_checked ss') ≤ 1)%nat
  ∧ plan_warning pg = false
  ∧ integrity_warning pg = false
  ∧ plan_selected pg = snd <$> head (plan_checked ss')
  ∧ recommended_area pg = recommended_area_of (snd <$> head (plan_checked ss'))
  ∧ selected_area pg = (λ ir, Area ir.2) <$> head (integrity_checked ss')
  ∧ p2_integrity pg = p2_integrity_of (selected_area pg) (recommended_area pg)
  ∧ selections pg = selections_of (plan_selected pg) (p2_integrity pg) b
  ∧ pdf pg = if bool_decide (pressed = GeneratePDF)
             then Some (build_pdf (selections pg)) else None.
Proof.
  intros Hrun. apply script_finished in Hrun as (Hp & Hi & -> & ->).
  rewrite integrity_input_plan_checked. unfold page_of. cbv zeta.
  rewrite (last_short (integrity_checked _)) by done.
  cbn [plan_warning plan_selected recommended_area integrity_warning
       selected_area p2_integrity selections pdf].
  repeat split; done.
Qed.

(** C3.  In every run that reaches line 751, [p2_integrity] is the area of
    the row whose box is set in the 2.3 table, whatever the recommendation
    is; with no box set there it is the entry of [RECOMMENDED_INTEGRITY]
    under the Gap of the row whose box is set in the 1.7 table; with no box
    set in either table it is the placeholder ["— select —"].  The boxes are
    those of the session state the run leaves, which is the state it started
    from unless a quick action was pressed. *)
Theorem effective_selection_prefers_current (pressed : button) (b : bool)
    (ss ss' : session_state) (pg : page) :
  script pressed b ss = Finished ss' pg →
  p2_integrity pg =
    match integrity_checked ss' with
    | ir :: _ => Area ir.2
    | [] =>
        match plan_checked ss' with
        | pr :: _ => default "— select —" (RECOMMENDED_INTEGRITY !! Gap pr.2)
        | [] => "— select —"
        end
    end
  ∧ selected_area pg = (λ ir, Area ir.2) <$> head (integrity_checked ss')
  ∧ plan_selected pg = snd <$> head (plan_checked ss')
  ∧ (pressed ≠ UseRecommended → pressed ≠ ClearSelection → ss' = ss)
  ∧ (∀ x, selected_area pg = Some x → p2_integrity pg = x)
  ∧ (∀ row y, selected_area pg = None → plan_selected pg = Some row →
       RECOMMENDED_INTEGRITY !! Gap row = Some y → p2_integrity pg = y).
Proof.
  intros Hrun.
  assert (pressed ≠ UseRecommended → pressed ≠ ClearSelection → ss' = ss) as Hstate.
  { intros Huse Hclear.
    pose proof (script_no_action_state pressed b ss Huse Hclear) as Hss.
    by rewrite Hrun in Hss. }
  destruct (finished_page _ _ _ _ _ Hrun)
    as (_ & _ & _ & _ & Hps & Hrec & Hsel & Hp2 & _).
  assert (∀ x, selected_area pg = Some x → p2_integrity pg = x) as Hcur.
  { intros x Hx. rewrite Hp2, Hx. unfold p2_integrity_of. apply or_else_Some.
    rewrite Hsel in Hx.
    destruct (head (integrity_checked ss')) as [ir|] eqn:Hhead; [|done].
    injection Hx as <-. apply head_Some_elem_of in Hhead.
    apply list_elem_of_filter in Hhead as [_ Hir].
    by apply integrity_rows_area. }
  assert (∀ row y, selected_area pg = None → plan_selected pg = Some row →
            RECOMMENDED_INTEGRITY !! Gap row = Some y → p2_integrity pg = y) as Hfall.
  { intros row y Hnone Hrow Hy. rewrite Hp2, Hnone, Hrec, <-Hps, Hrow.
    unfold p2_integrity_of. simpl. rewrite Hy. apply or_else_Some.
    by destruct (RECOMMENDED_INTEGRITY_values _ _ Hy). }
  split; [|by repeat split].
  destruct (integrity_checked ss') as [|ir rest] eqn:Hchecked.
  - destruct (plan_checked ss') as [|pr rest'] eqn:Hplan.
    + rewrite Hp2, Hsel, Hrec. done.
    + destruct (RECOMMENDED_INTEGRITY !! Gap pr.2) as [y|] eqn:Hy.
      * by apply (Hfall pr.2 y).
      * rewrite Hp2, Hsel, Hrec. simpl. unfold p2_integrity_of. simpl.
        by rewrite Hy.
  - by apply Hcur.
Qed.

Lemma effective_selection_prefers_current_witness :
  let ss : session_state := <["plan_row_1_Inconsistent_Patient_IDs" := true]> ∅ in
  let ss2 : session_state :=
    <["p2_integrity_2_Error_Detection_Alerts" := true]> ss in
  (∃ pg, script NoButton false ss = Finished ss pg
         ∧ p2_integrity pg = "Patient Identity Management (MPI)")
  ∧ (∃ pg, script NoButton false ss2 = Finished ss2 pg
           ∧ p2_integrity pg = "Error Detection & Alerts").
Proof.
  intros ss ss2. split.
  - assert (script NoButton false ss = Finished ss (page_of NoButton false ss))
      as Hrun by (by vm_compute).
    exists (page_of NoButton false ss). split; [exact Hrun|].
    destruct (effective_selection_prefers_current _ _ _ _ _ Hrun) as [-> _].
    by vm_compute.
  - assert (script NoButton false ss2 = Finished ss2 (page_of NoButton false ss2))
      as Hrun by (by vm_compute).
    exists (page_of NoButton false ss2). split; [exact Hrun|].
    destruct (effective_selection_prefers_current _ _ _ _ _ Hrun) as [-> _].
    by vm_compute.
Defined.

(** ** C1: several boxes checked in one run *)

(** C1.  A run that finds more than one box of a table set does not resolve
    the selection.  In the 1.7 table it shows its warning and raises
    [StreamlitAPIException] at the first assignment of
    [reset_other_checkboxes] (line 495, called at line 634): no key is
    written and [plan_selected] is never assigned.  With at most one box set
    in the 1.7 table and more than one in the 2.3 table the same happens at
    line 749: no key is written, and [selected_area] holds the area of the
    last checked row. *)
Theorem conflict_run_raises_and_unchecks_nothing (pressed : button) (b : bool)
    (ss : session_state) :
  ((1 < length (plan_checked ss))%nat →
     plan_section ss = (ss, true, StreamlitAPIException)
     ∧ script pressed b ss = RaisedInPlan ss)
  ∧ ((length (plan_checked ss) ≤ 1)%nat →
     (1 < length (integrity_checked ss))%nat →
     integrity_section ss =
       (ss, true, StreamlitAPIException,
        (λ ir, Area ir.2) <$> last (integrity_checked ss))
     ∧ script NoButton b ss =
         RaisedInIntegrity ss (snd <$> head (plan_checked ss))
           ((λ ir, Area ir.2) <$> last (integrity_checked ss))).
Proof.
  split.
  - intros Hp. split.
    + by rewrite plan_section_spec, !bool_decide_true.
    + by rewrite script_spec, bool_decide_true.
  - intros Hp Hi. split.
    + by rewrite integrity_section_spec, !bool_decide_true.
    + rewrite script_spec, bool_decide_false by lia.
      change (integrity_input NoButton ss) with ss.
      by rewrite bool_decide_true.
Qed.

Lemma conflict_run_raises_and_unchecks_nothing_witness :
  let plan_batch : session_state :=
    <["plan_row_1_Inconsistent_Patient_IDs" := true]>
      (<["plan_row_3_No_FHIR_Connection" := true]> ∅) in
  let integrity_batch : session_state :=
    <["p2_integrity_1_Access_Tracking_Audit_Logs_" := true]>
      (<["p2_integrity_3_Patient_Identity_Management_MPI_" := true]> ∅) in
  ((1 < length (plan_checked plan_batch))%nat
   ∧ (length (plan_checked integrity_batch) ≤ 1)%nat
   ∧ (1 < length (integrity_checked integrity_batch))%nat)
  ∧ script NoButton false plan_batch = RaisedInPlan plan_batch
  ∧ script NoButton false integrity_batch =
      RaisedInIntegrity integrity_batch None
        (Some "Patient Identity Management (MPI)").
Proof.
  intros plan_batch integrity_batch.
  assert (1 < length (plan_checked plan_batch))%nat as H1 by (vm_compute; lia).
  assert (length (plan_checked integrity_batch) ≤ 1)%nat as H2 by (vm_compute; lia).
  assert (1 < length (integrity_checked integrity_batch))%nat as H3
    by (vm_compute; lia).
  split; [exact (conj H1 (conj H2 H3))|]. split.
  - exact (proj2 (proj1 (conflict_run_raises_and_unchecks_nothing
                           NoButton false plan_batch) H1)).
  - pose proof (proj2 (proj2 (conflict_run_raises_and_unchecks_nothing
                                NoButton false integrity_batch) H2 H3)) as Hrun.
    rewrite Hrun. by vm_compute.
Defined.

(** ** C2: at most one selection *)

(** A run that reaches its last line has at most one box set in each table
    and reports an empty selection or an identifier of the table. *)
Lemma finished_run_single_selection pressed b ss ss' pg :
  script pressed b ss = Finished ss' pg →
  (length (plan_checked ss') ≤ 1)%nat
  ∧ (length (integrity_checked ss') ≤ 1)%nat
  ∧ (plan_selected pg = None
     ∨ ∃ row, row ∈ PLAN_ROWS ∧ plan_selected pg = Some row)
  ∧ (selected_area pg = None
     ∨ ∃ row, row ∈ INTEGRITY_ROWS ∧ selected_area pg = Some (Area row)).
Proof.
  intros Hrun.
  destruct (finished_page _ _ _ _ _ Hrun) as (Hp & Hi & _ & _ & Hps & _ & Hsel & _).
  repeat split; [done..| |].
  - rewrite Hps.
    destruct (head (plan_checked ss')) as [pr|] eqn:Hhead; [right|by left].
    exists pr.2. split; [|done].
    apply (head_checked_plan_row ss'). by rewrite Hhead.
  - rewrite Hsel.
    destruct (head (integrity_checked ss')) as [ir|] eqn:Hhead; [right|by left].
    apply head_Some_elem_of in Hhead.
    apply list_elem_of_filter in Hhead as [_ Hir].
    apply enumerate_elem in Hir. exists ir.2. split; [|done].
    by eapply list_elem_of_lookup_2.
Qed.

Lemma session_snoc events e :
  session (events ++ [e]) = step e (session events).1.
Proof. unfold session. by rewrite foldl_app. Qed.

Lemma step_plan_conflict e ss inc :
  leaves_plan_keys e →
  (1 < length (plan_checked ss))%nat →
  plan_checked (step e (ss, inc)).1.1 = plan_checked ss
  ∧ (step e (ss, inc)).2 = RaisedInPlan (step e (ss, inc)).1.1.
Proof.
  intros He Hp.
  assert (∀ pressed b ss0, plan_checked ss0 = plan_checked ss →
            plan_checked (outcome_state (script pressed b ss0)) = plan_checked ss
            ∧ script pressed b ss0 =
                RaisedInPlan (outcome_state (script pressed b ss0))) as Hrun.
  { intros pressed b ss0 Heq. rewrite script_spec, Heq, bool_decide_true by done.
    done. }
  destruct e as [key|batch|pressed|]; cbn [step fst snd]; apply Hrun; try done.
  - apply plan_checked_ext. intros k Hk. unfold click_checkbox.
    apply lookup_insert_ne. by intros ->.
  - apply plan_checked_ext. intros k Hk. apply lookup_union_r.
    simpl in He. rewrite Forall_forall in He. by apply He.
Qed.

(** C2.  After a click on the second row of the 1.7 table and a click on its
    fourth row, two boxes of that table are set and the run has raised; the
    two boxes are still set, and the run raises again, after any further
    events that change no key of the 1.7 table. *)
Theorem single_selection_lost_after_second_click (events : list event) :
  Forall leaves_plan_keys events →
  let q := session ([Toggle "plan_row_1_Inconsistent_Patient_IDs";
                     Toggle "plan_row_3_No_FHIR_Connection"] ++ events) in
  (λ ir, Gap ir.2) <$> plan_checked q.1.1 =
    ["Inconsistent Patient IDs"; "No FHIR Connection"]
  ∧ q.2 = RaisedInPlan q.1.1.
Proof.
  intros Hev. cbv zeta.
  induction events as [|e events IH] using rev_ind.
  { by vm_compute. }
  apply Forall_app in Hev as [Hev He]. rewrite Forall_singleton in He.
  destruct (IH Hev) as [Hboxes _].
  rewrite app_assoc, session_snoc.
  destruct (session _).1 as [ss inc] eqn:Hcur. simpl in Hboxes.
  assert (1 < length (plan_checked ss))%nat as Hp.
  { apply (f_equal length) in Hboxes. rewrite length_fmap in Hboxes.
    rewrite Hboxes. simpl. lia. }
  destruct (step_plan_conflict e ss inc He Hp) as [-> Hraised]. done.
Qed.

Lemma single_selection_lost_after_second_click_witness :
  let events := [Press NoButton; Press NoButton] in
  let q := session ([Toggle "plan_row_1_Inconsistent_Patient_IDs";
                     Toggle "plan_row_3_No_FHIR_Connection"] ++ events) in
  Forall leaves_plan_keys events
  ∧ (λ ir, Gap ir.2) <$> plan_checked q.1.1 =
      ["Inconsistent Patient IDs"; "No FHIR Connection"]
  ∧ q.2 = RaisedInPlan q.1.1.
Proof.
  intros events q.
  assert (Forall leaves_plan_keys events) as Hev.
  { do 2 (apply Forall_cons; split; [exact I|]). by constructor. }
  split; [exact Hev|].
  exact (single_selection_lost_after_second_click events Hev).
Defined.
(** ** C4 and C5: the quick actions *)

(** C4.  With one row of the 1.7 table selected and [y] recommended for its
    Gap, a run in which "Use recommended" is pressed reaches its last line,
    whatever the boxes of the 2.3 table were: it leaves the box of the row
    whose area is [y] set and every other box of the 2.3 table cleared,
    reports [y] as the recommendation, as the selected area and as
    [p2_integrity], and shows no warning. *)
Theorem use_recommended_selects (b : bool) (ss : session_state)
    (pr : nat * PlanRow) (y : string) :
  plan_checked ss = [pr] →
  RECOMMENDED_INTEGRITY !! Gap pr.2 = Some y →
  ∃ pg,
    script UseRecommended b ss = Finished (use_recommended (Some y) ss) pg
    ∧ recommended_area pg = Some y
    ∧ selected_area pg = Some y
    ∧ p2_integrity pg = y
    ∧ integrity_warning pg = false
    ∧ Forall (λ ir, use_recommended (Some y) ss !! integrity_row_key ir =
                      Some (bool_decide (Area ir.2 = y)))
        (enumerate INTEGRITY_ROWS)
    ∧ (λ ir, Area ir.2) <$> integrity_checked (use_recommended (Some y) ss) = [y].
Proof.
  intros Hplan Hy.
  destruct (RECOMMENDED_INTEGRITY_values _ _ Hy) as [Hin Hne].
  assert (recommended_area_of (snd <$> head (plan_checked ss)) = Some y) as Hrec.
  { by rewrite Hplan. }
  assert (integrity_input UseRecommended ss = use_recommended (Some y) ss) as Hinput.
  { unfold integrity_input. rewrite Hrec. cbn [truthy_str].
    rewrite (bool_decide_false (y = "")) by done. done. }
  destruct (filter_area_singleton y Hin) as (ir & Harea & Hfilter).
  assert (integrity_checked (use_recommended (Some y) ss) = [ir]) as Hchecked.
  { by rewrite integrity_checked_use_recommended. }
  assert (script UseRecommended b ss =
            Finished (use_recommended (Some y) ss) (page_of UseRecommended b ss))
    as Hrun.
  { rewrite <-Hinput. apply script_finishes.
    - rewrite Hplan. simpl. lia.
    - rewrite Hinput, Hchecked. simpl. lia. }
  exists (page_of UseRecommended b ss). split; [exact Hrun|].
  destruct (finished_page _ _ _ _ _ Hrun)
    as (_ & _ & _ & Hwarn & _ & Hrecpg & Hsel & Hp2 & _).
  rewrite plan_checked_use_recommended, Hrec in Hrecpg.
  assert (selected_area (page_of UseRecommended b ss) = Some y) as Hsel'.
  { rewrite Hsel, Hchecked. simpl. by rewrite Harea. }
  repeat split; [done..| | |].
  - rewrite Hp2, Hsel'. by apply or_else_Some.
  - apply Forall_forall. intros ir' Hir'.
    rewrite use_recommended_set by done. f_equal.
    apply bool_decide_ext. split; congruence.
  - rewrite Hchecked. simpl. by rewrite Harea.
Qed.

Lemma use_recommended_selects_witness :
  let ss : session_state :=
    <["plan_row_0_Data_Silos" := true]>
      (<["p2_integrity_2_Error_Detection_Alerts" := true]>
         (<["p2_integrity_3_Patient_Identity_Management_MPI_" := true]> ∅)) in
  let pr :=
    (0%nat,
     {| Gap := "Data Silos";
        Description :=
          "EHR and PACS store data separately; clinicians must open two systems.";
        Suggested_Interface_Type := "Interface Engine (Middleware)";
        Suggested_Fix := "Add/Optimize Interface Engine";
        Reference := "CMS Criterion 3 – Data Availability" |}) in
  let y := "Access Tracking (Audit Logs)" in
  (plan_checked ss = [pr] ∧ RECOMMENDED_INTEGRITY !! Gap pr.2 = Some y)
  ∧ ∃ pg,
      script UseRecommended false ss = Finished (use_recommended (Some y) ss) pg
      ∧ selected_area pg = Some y
      ∧ (λ ir, Area ir.2) <$> integrity_checked (use_recommended (Some y) ss) = [y].
Proof.
  intros ss pr y.
  assert (plan_checked ss = [pr]) as Hplan by (by vm_compute).
  assert (RECOMMENDED_INTEGRITY !! Gap pr.2 = Some y) as Hy by (by vm_compute).
  split; [exact (conj Hplan Hy)|].
  destruct (use_recommended_selects false ss pr y Hplan Hy)
    as (pg & Hrun & _ & Hsel & _ & _ & _ & Hchecked).
  exists pg. exact (conj Hrun (conj Hsel Hchecked)).
Defined.

(** C5.  With at most one box of the 1.7 table set, so that the run reaches
    the button, a run in which "Clear selection" is pressed reaches its last
    line, whatever the boxes of the 2.3 table were: it leaves every box of
    the 2.3 table cleared and reports no selected area; its [p2_integrity]
    is the recommendation when the plan selection has one and the
    placeholder ["— select —"] otherwise, which the export prints as the
    recommendation and as ["—"]. *)
Theorem clear_selection_empties (b : bool) (ss : session_state) :
  (length (plan_checked ss) ≤ 1)%nat →
  ∃ pg,
    script ClearSelection b ss = Finished (clear_selection ss) pg
    ∧ selected_area pg = None
    ∧ integrity_checked (clear_selection ss) = []
    ∧ Forall (λ k, clear_selection ss !! k = Some false) integrity_keys
    ∧ integrity_warning pg = false
    ∧ recommended_area pg =
        match plan_checked ss with
        | pr :: _ => RECOMMENDED_INTEGRITY !! Gap pr.2
        | [] => None
        end
    ∧ p2_integrity pg =
        match recommended_area pg with Some y => y | None => "— select —" end
    ∧ sel_or_dash (Some (PyStr (p2_integrity pg))) =
        PyStr (match recommended_area pg with Some y => y | None => "—" end).
Proof.
  intros Hplan.
  assert (integrity_input ClearSelection ss = clear_selection ss) as Hinput by done.
  assert (integrity_checked (clear_selection ss) = []) as Hchecked.
  { by rewrite integrity_checked_clear_selection. }
  assert (script ClearSelection b ss =
            Finished (clear_selection ss) (page_of ClearSelection b ss)) as Hrun.
  { rewrite <-Hinput. apply script_finishes; [done|].
    rewrite Hinput, Hchecked. simpl. lia. }
  exists (page_of ClearSelection b ss). split; [exact Hrun|].
  destruct (finished_page _ _ _ _ _ Hrun)
    as (_ & _ & _ & Hwarn & _ & Hrecpg & Hsel & Hp2 & _).
  rewrite plan_checked_clear_selection in Hrecpg.
  assert (selected_area (page_of ClearSelection b ss) = None) as Hsel'.
  { by rewrite Hsel, Hchecked. }
  assert (∀ y, recommended_area (page_of ClearSelection b ss) = Some y →
            y ∈ integrity_areas ∧ y ≠ "") as Hvalid.
  { intros y Hy. rewrite Hrecpg in Hy. by apply recommended_area_of_valid in Hy. }
  assert (p2_integrity (page_of ClearSelection b ss) =
            match recommended_area (page_of ClearSelection b ss) with
            | Some y => y | None => "— select —" end) as Hp2'.
  { rewrite Hp2, Hsel'. unfold p2_integrity_of. cbn [or_else].
    destruct (recommended_area _) as [y|] eqn:Hrec; [|done].
    destruct (Hvalid y eq_refl) as [_ Hne]. by apply or_else_Some. }
  split; [done|]. split; [done|]. split; [|split; [done|split; [|split; [done|]]]].
  - apply Forall_forall. intros k Hk.
    apply list_elem_of_fmap in Hk as (ir & -> & Hir).
    by apply clear_selection_set.
  - rewrite Hrecpg. by destruct (plan_checked ss).
  - rewrite Hp2'. destruct (recommended_area _) as [y|] eqn:Hrec; [|by vm_compute].
    destruct (Hvalid y eq_refl) as [Hy _]. by apply sel_or_dash_area.
Qed.

Lemma clear_selection_empties_witness :
  let ss : session_state :=
    <["plan_row_0_Data_Silos" := true]>
      (<["p2_integrity_2_Error_Detection_Alerts" := true]>
         (<["p2_integrity_3_Patient_Identity_Management_MPI_" := true]> ∅)) in
  (length (plan_checked ss) ≤ 1)%nat
  ∧ ∃ pg,
      script ClearSelection false ss = Finished (clear_selection ss) pg
      ∧ selected_area pg = None
      ∧ integrity_checked (clear_selection ss) = []
      ∧ p2_integrity pg = "Access Tracking (Audit Logs)".
Proof.
  intros ss.
  assert (length (plan_checked ss) ≤ 1)%nat as Hplan by (vm_compute; lia).
  split; [exact Hplan|].
  destruct (clear_selection_empties false ss Hplan)
    as (pg & Hrun & Hsel & Hchecked & _ & _ & Hrec & Hp2 & _).
  exists pg. split; [exact Hrun|]. split; [exact Hsel|]. split; [exact Hchecked|].
  rewrite Hp2, Hrec. by vm_compute.
Defined.

(** ** C8: the exported cells *)

(** What a finished run reports is valid: areas of the 2.3 table, rows of
    the 1.7 table. *)
Lemma finished_page_valid pressed b ss ss' pg :
  script pressed b ss = Finished ss' pg →
  (∀ x, selected_area pg = Some x → x ∈ integrity_areas ∧ x ≠ "")
  ∧ (∀ y, recommended_area pg = Some y → y ∈ integrity_areas ∧ y ≠ "")
  ∧ (∀ row, plan_selected pg = Some row → row ∈ PLAN_ROWS).
Proof.
  intros Hrun.
  destruct (finished_page _ _ _ _ _ Hrun)
    as (_ & _ & _ & _ & Hps & Hrec & Hsel & _).
  split; [|split].
  - intros x Hx. rewrite Hsel in Hx.
    destruct (head (integrity_checked ss')) as [ir|] eqn:Hhead; [|done].
    injection Hx as <-. apply head_Some_elem_of in Hhead.
    apply list_elem_of_filter in Hhead as [_ Hir].
    by apply integrity_rows_area.
  - intros y Hy. rewrite Hrec in Hy. by apply recommended_area_of_valid in Hy.
  - intros row Hrow. rewrite Hps in Hrow. by apply head_checked_plan_row in Hrow.
Qed.

(** C8.  In the document exported by a run that reaches its last line, the
    cell of the 2.3 table is the selected area, else the recommendation,
    else the dash ["—"]; the cells of the 1.7 table are the fields of the
    selected row, unchanged, or four dashes when no row is selected.
    [sel_or_dash] returns the dash for a missing value, for the empty string
    and for both placeholders, and the run yields the document exactly when
    "Generate PDF" is pressed. *)
Theorem export_prints_dash_for_empty (pressed : button) (b : bool)
    (ss ss' : session_state) (pg : page) :
  script pressed b ss = Finished ss' pg →
  table_23 (build_pdf (selections pg)) =
    [ [PyStr "Integrity/Security Focus";
       PyStr (match selected_area pg with
              | Some x => x
              | None => match recommended_area pg with
                        | Some y => y
                        | None => "—"
                        end
              end)] ]
  ∧ table_17 (build_pdf (selections pg)) =
      match plan_selected pg with
      | Some row =>
          [ [PyStr "Gap"; PyStr (Gap row)];
            [PyStr "Suggested Interface Type"; PyStr (Suggested_Interface_Type row)];
            [PyStr "Suggested Fix"; PyStr (Suggested_Fix row)];
            [PyStr "Standard Reference"; PyStr (Reference row)] ]
      | None =>
          [ [PyStr "Gap"; PyStr "—"];
            [PyStr "Suggested Interface Type"; PyStr "—"];
            [PyStr "Suggested Fix"; PyStr "—"];
            [PyStr "Standard Reference"; PyStr "—"] ]
      end
  ∧ pdf pg = (if bool_decide (pressed = GeneratePDF)
              then Some (build_pdf (selections pg)) else None)
  ∧ sel_or_dash None = PyStr "—"
  ∧ sel_or_dash (Some (PyStr "")) = PyStr "—"
  ∧ sel_or_dash (Some (PyStr "— select —")) = PyStr "—"
  ∧ sel_or_dash (Some (PyStr "— choose —")) = PyStr "—".
Proof.
  intros Hrun.
  destruct (finished_page _ _ _ _ _ Hrun)
    as (_ & _ & _ & _ & _ & _ & _ & Hp2 & Hsels & Hpdf).
  destruct (finished_page_valid _ _ _ _ _ Hrun) as (Hselv & Hrecv & Hrowv).
  split; [|split; [|split; [done|by vm_compute]]].
  - rewrite Hsels. unfold build_pdf. cbn [table_23].
    destruct (selections_of_lookups (plan_selected pg) (p2_integrity pg) b)
      as (-> & _).
    do 3 f_equal. rewrite Hp2. unfold p2_integrity_of.
    destruct (selected_area pg) as [x|] eqn:Hsel.
    { destruct (Hselv x eq_refl) as [Hx Hne].
      rewrite or_else_Some by done. by apply sel_or_dash_area. }
    cbn [or_else].
    destruct (recommended_area pg) as [y|] eqn:Hrec; [|by vm_compute].
    destruct (Hrecv y eq_refl) as [Hy Hne].
    rewrite or_else_Some by done. by apply sel_or_dash_area.
  - rewrite Hsels. unfold build_pdf. cbn [table_17].
    destruct (selections_of_lookups (plan_selected pg) (p2_integrity pg) b)
      as (_ & -> & -> & -> & ->).
    destruct (plan_selected pg) as [row|] eqn:Hrow; [|by vm_compute].
    cbn [from_option].
    destruct (sel_or_dash_plan_row row (Hrowv row eq_refl)) as (-> & -> & -> & ->).
    done.
Qed.

Lemma export_prints_dash_for_empty_witness :
  let ss : session_state := <["plan_row_4_Delayed_Lab_Results" := false]> ∅ in
  ∃ pg,
    script GeneratePDF false ss = Finished ss pg
    ∧ pdf pg = Some (build_pdf (selections pg))
    ∧ table_23 (build_pdf (selections pg)) =
        [ [PyStr "Integrity/Security Focus"; PyStr "—"] ]
    ∧ table_17 (build_pdf (selections pg)) =
        [ [PyStr "Gap"; PyStr "—"];
          [PyStr "Suggested Interface Type"; PyStr "—"];
          [PyStr "Suggested Fix"; PyStr "—"];
          [PyStr "Standard Reference"; PyStr "—"] ].
Proof.
  intros ss.
  assert (script GeneratePDF false ss = Finished ss (page_of GeneratePDF false ss))
    as Hrun by (by vm_compute).
  exists (page_of GeneratePDF false ss). split; [exact Hrun|].
  destruct (export_prints_dash_for_empty _ _ _ _ _ Hrun)
    as (H23 & H17 & Hpdf & _).
  split; [exact Hpdf|]. split.
  - rewrite H23. by vm_compute.
  - rewrite H17. by vm_compute.
Defined.
(** ** C7: keys and gaps the tables do not know *)

Section foreign_key.
Context {A : Type} (key : A → string) (rows : list A).
Context (k : string) (v : bool).
Hypothesis foreign : k ∉ key <$> rows.

Lemma checked_rows_insert_foreign (ss : session_state) :
  checked_rows key (<[k := v]> ss) rows = checked_rows key ss rows.
Proof using foreign.
  apply checked_rows_ext. intros j Hj.
  apply lookup_insert_ne. by intros ->.
Qed.

Lemma foldl_insert_foreign (val : A → bool) (ss : session_state) :
  foldl (λ st r, <[key r := val r]> st) (<[k := v]> ss) rows =
    <[k := v]> (foldl (λ st r, <[key r := val r]> st) ss rows).
Proof using foreign.
  clear -foreign. revert ss. induction rows as [|r0 rows' IH]; intros ss; [done|].
  rewrite fmap_cons, not_elem_of_cons in foreign. destruct foreign as [Hne Hk].
  simpl. rewrite <-IH by done. f_equal. by apply insert_insert_ne.
Qed.
End foreign_key.

(** A value stored under a key that is no checkbox of either table goes
    through a run untouched and changes nothing else of its outcome. *)
Lemma script_insert_foreign pressed b ss k v :
  k ∉ plan_keys → k ∉ integrity_keys →
  script pressed b (<[k := v]> ss) = outcome_insert k v (script pressed b ss).
Proof.
  intros Hp Hi.
  assert (∀ X, plan_checked (<[k := v]> X) = plan_checked X) as Hpc.
  { intros X. by apply checked_rows_insert_foreign. }
  assert (∀ X, integrity_checked (<[k := v]> X) = integrity_checked X) as Hic.
  { intros X. by apply checked_rows_insert_foreign. }
  assert (integrity_input pressed (<[k := v]> ss) =
            <[k := v]> (integrity_input pressed ss)) as Hin.
  { unfold integrity_input. cbv zeta. rewrite Hpc.
    destruct (bool_decide (pressed = UseRecommended) && _).
    { unfold use_recommended. by rewrite foldl_insert_foreign. }
    destruct (bool_decide (pressed = ClearSelection)); [|done].
    unfold clear_selection. by rewrite foldl_insert_foreign. }
  assert (page_of pressed b (<[k := v]> ss) = page_of pressed b ss) as Hpage.
  { unfold page_of. by rewrite Hpc, Hin, Hic. }
  rewrite !script_spec, Hpc, Hin, Hic, Hpage.
  by repeat case_bool_decide.
Qed.

(** C7.  A click on a key that is no checkbox of either table raises
    nothing of its own: the run ends as it would without the click, with the
    same page or at the same line, and leaves the session state as well,
    apart from the value under that key itself.  A Gap that is not in the
    recommendation table has the empty recommendation, and while the
    recommendation is empty "Use recommended" does what a run without a
    button does. *)
Theorem unknown_identifier_no_effect (k : string) (row : PlanRow)
    (pressed : button) (inc : bool) (ss : session_state) :
  k ∉ plan_keys → k ∉ integrity_keys →
  RECOMMENDED_INTEGRITY !! Gap row = None →
  step (Toggle k) (ss, inc) =
    (<[k := negb (checkbox ss k)]> (outcome_state (script NoButton inc ss)), inc,
     outcome_insert k (negb (checkbox ss k)) (script NoButton inc ss))
  ∧ script pressed inc (click_checkbox k ss) =
      outcome_insert k (negb (checkbox ss k)) (script pressed inc ss)
  ∧ outcome_page (script pressed inc (click_checkbox k ss)) =
      outcome_page (script pressed inc ss)
  ∧ plan_checked (outcome_state (script pressed inc (click_checkbox k ss))) =
      plan_checked (outcome_state (script pressed inc ss))
  ∧ integrity_checked (outcome_state (script pressed inc (click_checkbox k ss))) =
      integrity_checked (outcome_state (script pressed inc ss))
  ∧ recommended_area_of (Some row) = None
  ∧ p2_integrity_of None (recommended_area_of (Some row)) = "— select —"
  ∧ (recommended_area_of (snd <$> head (plan_checked ss)) = None →
     script UseRecommended inc ss = script NoButton inc ss).
Proof.
  intros Hp Hi Hrow. unfold click_checkbox.
  pose proof (script_insert_foreign pressed inc ss k (negb (checkbox ss k)) Hp Hi)
    as Hrun.
  assert (∀ o, outcome_state (outcome_insert k (negb (checkbox ss k)) o) =
               <[k := negb (checkbox ss k)]> (outcome_state o)) as Hstate.
  { by intros []. }
  split; [|split; [|split; [|split; [|split; [|split; [|split]]]]]].
  - cbn [step]. unfold click_checkbox.
    by rewrite (script_insert_foreign NoButton inc ss k _ Hp Hi), Hstate.
  - done.
  - rewrite Hrun. by destruct (script pressed inc ss).
  - rewrite Hrun, Hstate. by apply checked_rows_insert_foreign.
  - rewrite Hrun, Hstate. by apply checked_rows_insert_foreign.
  - done.
  - simpl. by rewrite Hrow.
  - intros Hrec. rewrite !script_spec.
    assert (integrity_input UseRecommended ss = ss) as ->.
    { unfold integrity_input. by rewrite Hrec. }
    assert (page_of UseRecommended inc ss = page_of NoButton inc ss) as ->.
    { unfold page_of, integrity_input. by rewrite Hrec. }
    done.
Qed.

Lemma unknown_identifier_no_effect_witness :
  let k := "nonexistent-id" in
  let row := {| Gap := "Unknown gap"; Description := ""; Suggested_Interface_Type := "";
                Suggested_Fix := ""; Reference := "" |} in
  let ss : session_state := <["p2_integrity_2_Error_Detection_Alerts" := true]> ∅ in
  ((k ∉ plan_keys) ∧ (k ∉ integrity_keys) ∧ RECOMMENDED_INTEGRITY !! Gap row = None)
  ∧ step (Toggle k) (ss, false) =
      (<[k := negb (checkbox ss k)]> (outcome_state (script NoButton false ss)), false,
       outcome_insert k (negb (checkbox ss k)) (script NoButton false ss))
  ∧ recommended_area_of (Some row) = None
  ∧ script UseRecommended false ss = script NoButton false ss.
Proof.
  intros k row ss.
  assert (k ∉ plan_keys) as Hp by (apply (bool_decide_unpack _); by vm_compute).
  assert (k ∉ integrity_keys) as Hi by (apply (bool_decide_unpack _); by vm_compute).
  assert (RECOMMENDED_INTEGRITY !! Gap row = None) as Hrow by (by vm_compute).
  destruct (unknown_identifier_no_effect k row NoButton false ss Hp Hi Hrow)
    as (Hstep & _ & _ & _ & _ & Hnone & _ & Hdisabled).
  split; [exact (conj Hp (conj Hi Hrow))|].
  split; [exact Hstep|]. split; [exact Hnone|].
  apply Hdisabled. by vm_compute.
Defined.

(** ** C9: each table writes its own keys *)

(** What [reset_other_checkboxes] leaves under a key: the value it found, or
    [False] under a key of its list, other than [keep_key], that was set and
    belongs to no widget drawn so far. *)
Lemma reset_other_checkboxes_lookup drawn cks keep (ss : session_state) k :
  (reset_other_checkboxes drawn cks keep ss).1 !! k = ss !! k
  ∨ ((reset_other_checkboxes drawn cks keep ss).1 !! k = Some false
     ∧ k ∈ cks ∧ k ≠ keep ∧ (k ∉ drawn) ∧ truthy_flag (ss !! k) = true).
Proof.
  revert ss. induction cks as [|k0 cks IH]; intros ss; [by left|].
  cbn [reset_other_checkboxes].
  destruct (negb (bool_decide (k0 = keep)) && truthy_flag (ss !! k0)) eqn:Hcond.
  - apply andb_true_iff in Hcond as [Hne Hset].
    apply negb_true_iff, bool_decide_eq_false in Hne.
    unfold session_assign. case_bool_decide as Hdrawn; [by left|].
    destruct (IH (<[k0 := false]> ss)) as [Hsame|(Hfalse & Hin & Hk & Hnd & Hwas)].
    + destruct (decide (k = k0)) as [->|Hkk].
      * right. rewrite Hsame, lookup_insert_eq.
        repeat split; [by left|done..].
      * left. by rewrite Hsame, lookup_insert_ne.
    + right. destruct (decide (k = k0)) as [->|Hkk].
      * by rewrite lookup_insert_eq in Hwas.
      * rewrite lookup_insert_ne in Hwas by done.
        repeat split; [done|by right|done..].
  - destruct (IH ss) as [Hsame|(Hfalse & Hin & Hk & Hnd & Hwas)]; [by left|].
    right. repeat split; [done|by right|done..].
Qed.

Lemma reset_other_checkboxes_frame drawn cks keep (ss : session_state) k :
  k ∉ cks → (reset_other_checkboxes drawn cks keep ss).1 !! k = ss !! k.
Proof.
  intros Hk.
  by destruct (reset_other_checkboxes_lookup drawn cks keep ss k)
    as [?|(_ & ? & _)].
Qed.


(** How far a run gets, and what it has assigned by then. *)
Lemma script_plan_selected pressed b ss :
  outcome_plan_selected (script pressed b ss) =
    if bool_decide (1 < length (plan_checked ss))%nat then None
    else Some (snd <$> head (plan_checked ss)).
Proof. rewrite script_spec. by repeat case_bool_decide. Qed.




(** * Further properties of the code *)

(** ** [slug] *)

Lemma slug_from_chars in_run s :
  Forall (λ c, is_slug_char c = true) (list_ascii_of_string (slug_from in_run s)).
Proof.
  revert in_run. induction s as [|c s IH]; intros in_run; simpl; [constructor|].
  destruct (is_slug_char c) eqn:Hc; simpl; [by constructor|].
  destruct in_run; simpl; [done|]. by constructor.
Qed.

Lemma slug_from_clean in_run s :
  Forall (λ c, is_slug_char c = true) (list_ascii_of_string s) →
  slug_from in_run s = s.
Proof.
  revert in_run. induction s as [|c s IH]; intros in_run; simpl; [done|].
  intros Hall. apply Forall_cons in Hall as [-> Hall]. by rewrite IH.
Qed.

Lemma slug_from_length in_run s :
  (String.length (slug_from in_run s) ≤ String.length s)%nat.
Proof.
  revert in_run. induction s as [|c s IH]; intros in_run; simpl; [lia|].
  destruct (is_slug_char c); simpl.
  - pose proof (IH false). lia.
  - destruct in_run; simpl; [pose proof (IH true)|pose proof (IH true)]; lia.
Qed.

(** X1.  [slug] returns only letters, digits and underscores, and never a
    longer string than it was given. *)
Theorem slug_output_alphabet (s : string) :
  Forall (λ c, is_slug_char c = true) (list_ascii_of_string (slug s))
  ∧ (String.length (slug s) ≤ String.length s)%nat.
Proof. split; [apply slug_from_chars|apply slug_from_length]. Qed.

(** X2.  [slug] is idempotent, and it returns unchanged every string made of
    letters, digits and underscores only. *)
Theorem slug_idempotent (s t : string) :
  Forall (λ c, is_slug_char c = true) (list_ascii_of_string t) →
  slug t = t ∧ slug (slug s) = slug s.
Proof.
  intros Ht. split; [by apply slug_from_clean|].
  apply slug_from_clean, slug_from_chars.
Qed.

Lemma slug_idempotent_witness :
  Forall (λ c, is_slug_char c = true) (list_ascii_of_string "Data_Silos_2")
  ∧ slug "Data_Silos_2" = "Data_Silos_2"
  ∧ slug (slug "Data Integrity & Security") = slug "Data Integrity & Security".
Proof.
  assert (Forall (λ c, is_slug_char c = true) (list_ascii_of_string "Data_Silos_2"))
    as Ht by (apply (bool_decide_unpack _); by vm_compute).
  split; [exact Ht|].
  exact (slug_idempotent "Data Integrity & Security" "Data_Silos_2" Ht).
Defined.

(** ** Widget keys of arbitrary tables *)

Lemma string_of_uint_no_underscore d :
  Forall (λ c, c ≠ "_"%char) (list_ascii_of_string (NilEmpty.string_of_uint d)).
Proof. induction d; simpl; by constructor. Qed.

Lemma append_separator_inj (s1 s2 t1 t2 : string) :
  Forall (λ c, c ≠ "_"%char) (list_ascii_of_string s1) →
  Forall (λ c, c ≠ "_"%char) (list_ascii_of_string s2) →
  s1 ++ String "_" t1 = s2 ++ String "_" t2 → s1 = s2 ∧ t1 = t2.
Proof.
  revert s2. induction s1 as [|c s1 IH]; intros [|c' s2]; simpl; intros H1 H2 Heq.
  - by injection Heq.
  - injection Heq as <- _. by apply Forall_cons in H2 as [? _].
  - injection Heq as -> _. by apply Forall_cons in H1 as [? _].
  - injection Heq as -> Heq.
    apply Forall_cons in H1 as [_ H1]. apply Forall_cons in H2 as [_ H2].
    destruct (IH s2 H1 H2 Heq) as [-> ->]. done.
Qed.

Lemma append_inj_l (p x y : string) : p ++ x = p ++ y → x = y.
Proof. induction p as [|c p IH]; simpl; [done|]. intros [= Heq]. by apply IH. Qed.

Lemma indexed_key_inj (prefix : string) (i j : nat) (t t' : string) :
  prefix ++ str_of_index i ++ "_" ++ t = prefix ++ str_of_index j ++ "_" ++ t' →
  i = j ∧ t = t'.
Proof.
  intros Heq. apply append_inj_l in Heq.
  apply append_separator_inj in Heq as [Hi Ht];
    [|apply string_of_uint_no_underscore..].
  split; [|done].
  apply DecimalNat.Unsigned.to_uint_inj.
  assert (Some (Nat.to_uint i) = Some (Nat.to_uint j)) as [= ->]; [|done].
  rewrite <-!DecimalString.NilEmpty.usu. unfold str_of_index in Hi. by rewrite Hi.
Qed.

Lemma plan_key_inj i j r r' :
  plan_key i r = plan_key j r' → i = j ∧ slug (Gap r) = slug (Gap r').
Proof. apply indexed_key_inj. Qed.

Lemma integrity_key_inj i j q q' :
  integrity_key i q = integrity_key j q' → i = j ∧ slug (Area q) = slug (Area q').
Proof. apply indexed_key_inj. Qed.

Lemma plan_key_not_integrity_key i j r q : plan_key i r ≠ integrity_key j q.
Proof. unfold plan_key, integrity_key. simpl. discriminate. Qed.

Lemma enumerate_lookup {A} (l : list A) (i : nat) :
  enumerate l !! i = (λ x, (i, x)) <$> l !! i.
Proof. unfold enumerate. apply list_lookup_imap. Qed.

Lemma plan_keys_lookup (rows : list PlanRow) i :
  (plan_row_key <$> enumerate rows) !! i = plan_key i <$> rows !! i.
Proof.
  rewrite list_lookup_fmap, enumerate_lookup. by destruct (rows !! i).
Qed.

Lemma integrity_keys_lookup (rows : list IntegrityRow) i :
  (integrity_row_key <$> enumerate rows) !! i = integrity_key i <$> rows !! i.
Proof.
  rewrite list_lookup_fmap, enumerate_lookup. by destruct (rows !! i).
Qed.

(** X3.  Whatever rows the two tables hold, the widget keys the script
    builds for them are pairwise distinct: the index in each key tells the
    rows of one table apart (even rows with the same text), and no key of
    the 1.7 table is a key of the 2.3 table. *)
Theorem widget_keys_distinct (rows : list PlanRow) (irows : list IntegrityRow) :
  NoDup ((plan_row_key <$> enumerate rows)
         ++ (integrity_row_key <$> enumerate irows)).
Proof.
  apply NoDup_app. split; [|split].
  - apply NoDup_alt. intros i j k Hi Hj.
    rewrite plan_keys_lookup in Hi, Hj.
    apply fmap_Some in Hi as (r & _ & ->). apply fmap_Some in Hj as (r' & _ & Hj).
    by apply plan_key_inj in Hj as [? _].
  - intros k Hp Hi.
    apply list_elem_of_fmap in Hp as ([i r] & -> & _).
    apply list_elem_of_fmap in Hi as ([j q] & Heq & _).
    by apply plan_key_not_integrity_key in Heq.
  - apply NoDup_alt. intros i j k Hi Hj.
    rewrite integrity_keys_lookup in Hi, Hj.
    apply fmap_Some in Hi as (r & _ & ->). apply fmap_Some in Hj as (r' & _ & Hj).
    by apply integrity_key_inj in Hj as [? _].
Qed.

(** ** [reset_other_checkboxes] *)

(** When the loop completes, every key of its list other than [keep_key] is
    unset. *)
Lemma reset_other_checkboxes_completed drawn cks keep (ss : session_state) k :
  (reset_other_checkboxes drawn cks keep ss).2 = Completed →
  k ∈ cks → k ≠ keep →
  truthy_flag ((reset_other_checkboxes drawn cks keep ss).1 !! k) = false.
Proof.
  revert ss. induction cks as [|k0 cks IH]; intros ss Hdone Hin Hk.
  { by apply elem_of_nil in Hin. }
  cbn [reset_other_checkboxes] in *.
  destruct (negb (bool_decide (k0 = keep)) && truthy_flag (ss !! k0)) eqn:Hcond.
  - unfold session_assign in *. case_bool_decide as Hdrawn; [done|].
    apply elem_of_cons in Hin as [->|Hin]; [|by apply IH].
    destruct (reset_other_checkboxes_lookup drawn cks keep (<[k0 := false]> ss) k0)
      as [Hsame|(Hfalse & _)].
    + by rewrite Hsame, lookup_insert_eq.
    + by rewrite Hfalse.
  - apply elem_of_cons in Hin as [->|Hin]; [|by apply IH].
    apply andb_false_iff in Hcond as [Hkeep|Hunset].
    { apply negb_false_iff, bool_decide_eq_true in Hkeep. done. }
    destruct (reset_other_checkboxes_lookup drawn cks keep ss k0)
      as [Hsame|(Hfalse & _)].
    + by rewrite Hsame.
    + by rewrite Hfalse.
Qed.

(** The loop raises exactly when its list holds a key, other than
    [keep_key], that is set and belongs to a widget drawn so far. *)
Lemma reset_other_checkboxes_raises drawn cks keep (ss : session_state) :
  (reset_other_checkboxes drawn cks keep ss).2 = StreamlitAPIException
  ↔ ∃ j, j ∈ cks ∧ j ≠ keep ∧ j ∈ drawn ∧ truthy_flag (ss !! j) = true.
Proof.
  revert ss. induction cks as [|k0 cks IH]; intros ss.
  { split; [done|]. intros (j & Hj & _). by apply elem_of_nil in Hj. }
  cbn [reset_other_checkboxes].
  destruct (negb (bool_decide (k0 = keep)) && truthy_flag (ss !! k0)) eqn:Hcond.
  - apply andb_true_iff in Hcond as [Hne Hset].
    apply negb_true_iff, bool_decide_eq_false in Hne.
    unfold session_assign. case_bool_decide as Hdrawn.
    { split; [intros _|done]. exists k0. repeat split; [by left|done..]. }
    rewrite IH. split.
    + intros (j & Hj & Hjk & Hjd & Hjs). exists j.
      assert (j ≠ k0) as Hjk0 by (by intros ->).
      rewrite lookup_insert_ne in Hjs by done.
      repeat split; [by right|done..].
    + intros (j & Hj & Hjk & Hjd & Hjs).
      assert (j ≠ k0) as Hjk0 by (by intros ->).
      apply elem_of_cons in Hj as [->|Hj]; [done|].
      exists j. rewrite lookup_insert_ne by done. done.
  - rewrite IH. split.
    + intros (j & Hj & Hrest). exists j. split; [by right|done].
    + intros (j & Hj & Hjk & Hjd & Hjs).
      apply elem_of_cons in Hj as [->|Hj]; [|by exists j].
      apply andb_false_iff in Hcond as [Hkeep|Hunset].
      * apply negb_false_iff, bool_decide_eq_true in Hkeep. done.
      * congruence.
Qed.

(** The state a completed loop leaves. *)
Lemma reset_other_checkboxes_completed_lookup drawn cks keep (ss : session_state) k :
  (reset_other_checkboxes drawn cks keep ss).2 = Completed →
  (reset_other_checkboxes drawn cks keep ss).1 !! k =
    if bool_decide (k ∈ cks) && negb (bool_decide (k = keep))
       && truthy_flag (ss !! k)
    then Some false else ss !! k.
Proof.
  intros Hdone.
  pose proof (reset_other_checkboxes_completed drawn cks keep ss k Hdone) as Hunset.
  destruct (reset_other_checkboxes_lookup drawn cks keep ss k)
    as [Hsame|(Hfalse & Hin & Hk & _ & Hset)].
  - rewrite Hsame.
    destruct (bool_decide (k ∈ cks) && negb (bool_decide (k = keep))
              && truthy_flag (ss !! k)) eqn:Hcond; [|done].
    apply andb_true_iff in Hcond as [Hcond Hset].
    apply andb_true_iff in Hcond as [Hin Hk].
    apply bool_decide_eq_true in Hin.
    apply negb_true_iff, bool_decide_eq_false in Hk.
    rewrite Hsame in Hunset. rewrite Hunset in Hset by done. done.
  - rewrite Hfalse, Hset, bool_decide_true, (bool_decide_false (k = keep)) by done.
    done.
Qed.

(** X4.  [reset_other_checkboxes] never touches [keep_key], a key of a
    widget drawn so far or a key outside its list, and never sets a key: it
    leaves under a key what it found or [False] where it found [True].  When
    it completes, every key of its list other than [keep_key] is unset.  It
    raises exactly when its list holds a key, other than [keep_key], that is
    set and belongs to a widget drawn so far. *)
Theorem reset_other_checkboxes_unchecks_the_rest (drawn checked_keys : list string)
    (keep_key : string) (ss : session_state) (k : string) :
  let r := reset_other_checkboxes drawn checked_keys keep_key ss in
  r.1 !! keep_key = ss !! keep_key
  ∧ (k ∈ drawn → r.1 !! k = ss !! k)
  ∧ (k ∉ checked_keys → r.1 !! k = ss !! k)
  ∧ (r.1 !! k = ss !! k
     ∨ (r.1 !! k = Some false ∧ truthy_flag (ss !! k) = true))
  ∧ (r.2 = Completed → k ∈ checked_keys → k ≠ keep_key →
     truthy_flag (r.1 !! k) = false)
  ∧ (r.2 = StreamlitAPIException ↔
     ∃ j, j ∈ checked_keys ∧ j ≠ keep_key ∧ j ∈ drawn
          ∧ truthy_flag (ss !! j) = true).
Proof.
  cbv zeta. split; [|split; [|split; [|split; [|split]]]].
  - by destruct (reset_other_checkboxes_lookup drawn checked_keys keep_key ss keep_key)
      as [?|(_ & _ & ? & _)].
  - intros Hk.
    by destruct (reset_other_checkboxes_lookup drawn checked_keys keep_key ss k)
      as [?|(_ & _ & _ & ? & _)].
  - apply reset_other_checkboxes_frame.
  - destruct (reset_other_checkboxes_lookup drawn checked_keys keep_key ss k)
      as [?|(? & _ & _ & _ & ?)]; [by left|by right].
  - apply reset_other_checkboxes_completed.
  - apply reset_other_checkboxes_raises.
Qed.

Lemma reset_other_checkboxes_unchecks_the_rest_witness :
  let ss : session_state := <["a" := true]> (<["b" := true]> (<["c" := true]> ∅)) in
  let r := reset_other_checkboxes [] ["a"; "b"] "a" ss in
  let r' := reset_other_checkboxes ["b"] ["a"; "b"] "a" ss in
  (r.2 = Completed ∧ "b" ∈ ["a"; "b"] ∧ "b" ≠ "a" ∧ ("c" ∉ ["a"; "b"])
   ∧ "b" ∈ ["b"])
  ∧ truthy_flag (r.1 !! "b") = false
  ∧ r.1 !! "c" = ss !! "c"
  ∧ r'.1 !! "b" = ss !! "b"
  ∧ r'.2 = StreamlitAPIException.
Proof.
  intros ss r r'.
  assert (r.2 = Completed) as H1 by (by vm_compute).
  assert ("b" ∈ ["a"; "b"]) as H2 by (apply (bool_decide_unpack _); by vm_compute).
  assert ("b" ≠ "a") as H3 by (apply (bool_decide_unpack _); by vm_compute).
  assert ("c" ∉ ["a"; "b"]) as H4 by (apply (bool_decide_unpack _); by vm_compute).
  assert ("b" ∈ ["b"]) as H5 by (apply (bool_decide_unpack _); by vm_compute).
  split; [exact (conj H1 (conj H2 (conj H3 (conj H4 H5))))|].
  destruct (reset_other_checkboxes_unchecks_the_rest [] ["a"; "b"] "a" ss "b")
    as (_ & _ & _ & _ & Hunset & _).
  destruct (reset_other_checkboxes_unchecks_the_rest [] ["a"; "b"] "a" ss "c")
    as (_ & _ & Hframe & _).
  destruct (reset_other_checkboxes_unchecks_the_rest ["b"] ["a"; "b"] "a" ss "b")
    as (_ & Hdrawn & _ & _ & _ & Hraises).
  split; [exact (Hunset H1 H2 H3)|]. split; [exact (Hframe H4)|].
  split; [exact (Hdrawn H5)|].
  apply Hraises. exists "b". split; [exact H2|]. split; [exact H3|].
  split; [exact H5|]. by vm_compute.
Defined.

(** X5.  Whether [reset_other_checkboxes] raises depends on the keys of its
    list, not on their order or repetitions; and when it completes, so does
    the state it leaves. *)
Theorem reset_other_checkboxes_order_free (drawn cks cks' : list string)
    (keep_key : string) (ss : session_state) :
  (∀ k, k ∈ cks ↔ k ∈ cks') →
  (reset_other_checkboxes drawn cks keep_key ss).2 =
    (reset_other_checkboxes drawn cks' keep_key ss).2
  ∧ ((reset_other_checkboxes drawn cks keep_key ss).2 = Completed →
     (reset_other_checkboxes drawn cks keep_key ss).1 =
       (reset_other_checkboxes drawn cks' keep_key ss).1).
Proof.
  intros Hsame.
  assert ((reset_other_checkboxes drawn cks keep_key ss).2 =
            (reset_other_checkboxes drawn cks' keep_key ss).2) as Hstatus.
  { pose proof (reset_other_checkboxes_raises drawn cks keep_key ss) as H1.
    pose proof (reset_other_checkboxes_raises drawn cks' keep_key ss) as H2.
    destruct (reset_other_checkboxes drawn cks keep_key ss).2,
             (reset_other_checkboxes drawn cks' keep_key ss).2; try done.
    - destruct (proj1 H2 eq_refl) as (j & Hj & Hrest).
      assert (Completed = StreamlitAPIException); [|done].
      apply H1. exists j. by rewrite Hsame.
    - destruct (proj1 H1 eq_refl) as (j & Hj & Hrest).
      assert (Completed = StreamlitAPIException); [|done].
      apply H2. exists j. by rewrite <-Hsame. }
  split; [done|]. intros Hdone. apply map_eq. intros k.
  rewrite !reset_other_checkboxes_completed_lookup by congruence.
  by rewrite (bool_decide_ext (k ∈ cks) (k ∈ cks')).
Qed.

Lemma reset_other_checkboxes_order_free_witness :
  let ss : session_state := <["a" := true]> (<["b" := true]> (<["c" := true]> ∅)) in
  (∀ k, k ∈ ["a"; "b"; "c"] ↔ k ∈ ["c"; "b"; "b"; "a"])
  ∧ (reset_other_checkboxes ["c"] ["a"; "b"; "c"] "a" ss).2 =
      (reset_other_checkboxes ["c"] ["c"; "b"; "b"; "a"] "a" ss).2
  ∧ reset_other_checkboxes [] ["a"; "b"; "c"] "b" ss =
      reset_other_checkboxes [] ["c"; "b"; "b"; "a"] "b" ss.
Proof.
  intros ss.
  assert (∀ k, k ∈ ["a"; "b"; "c"] ↔ k ∈ ["c"; "b"; "b"; "a"]) as Hsame.
  { intros k. rewrite !elem_of_cons, !elem_of_nil. tauto. }
  split; [exact Hsame|]. split.
  - exact (proj1 (reset_other_checkboxes_order_free ["c"] _ _ "a" ss Hsame)).
  - destruct (reset_other_checkboxes_order_free [] _ _ "b" ss Hsame) as [Hst Hss].
    assert ((reset_other_checkboxes [] ["a"; "b"; "c"] "b" ss).2 = Completed)
      as Hdone by (by vm_compute).
    specialize (Hss Hdone).
    destruct (reset_other_checkboxes [] ["a"; "b"; "c"] "b" ss),
             (reset_other_checkboxes [] ["c"; "b"; "b"; "a"] "b" ss).
    simpl in *. congruence.
Defined.

(** ** [sel_or_dash] *)

(** X6.  Whatever it is given, [sel_or_dash] returns a truthy value that is
    neither of the two placeholders, and applying it to its own result
    changes nothing: an exported cell is never empty. *)
Theorem sel_or_dash_never_empty (val : option pyval) :
  truthy_val (sel_or_dash val) = true
  ∧ (sel_or_dash val ∉ [PyStr "— select —"; PyStr "— choose —"])
  ∧ sel_or_dash (Some (sel_or_dash val)) = sel_or_dash val.
Proof.
  assert (truthy_val (PyStr "—") = true
          ∧ (PyStr "—" ∉ [PyStr "— select —"; PyStr "— choose —"])
          ∧ sel_or_dash (Some (PyStr "—")) = PyStr "—") as Hdash.
  { split; [by vm_compute|]. split; [|by vm_compute].
    apply (bool_decide_unpack _). by vm_compute. }
  destruct val as [v|]; [|exact Hdash].
  assert ((sel_or_dash (Some v) = v ∧ truthy_val v = true
           ∧ (v ∉ [PyStr "— select —"; PyStr "— choose —"]))
          ∨ sel_or_dash (Some v) = PyStr "—") as [(Hs & Hv & Hin)|Hs].
  { unfold sel_or_dash. destruct (truthy_val v); simpl; [|by right].
    destruct (bool_decide (v ∈ _)) eqn:Hin; simpl; [by right|left].
    by apply bool_decide_eq_false in Hin. }
  - by rewrite !Hs.
  - rewrite Hs. exact Hdash.
Qed.

(** ** A run after a run *)

(** X7.  A further run with no user action ends where the run before it
    ended: it raises at the same line with the same values assigned, or
    shows the same page without the exported document; and it leaves the
    session state as it found it. *)
Theorem run_is_a_fixed_point (pressed : button) (b : bool) (ss : session_state) :
  let first := script pressed b ss in
  let again := script NoButton b (outcome_state first) in
  again =
    match first with
    | Finished ss' pg => Finished ss' (without_pdf pg)
    | _ => first
    end
  ∧ outcome_state again = outcome_state first.
Proof.
  cbv zeta. split; [|by apply script_no_action_state].
  rewrite (script_spec pressed).
  case_bool_decide as Hp; cbn [outcome_state].
  { by rewrite script_spec, bool_decide_true. }
  case_bool_decide as Hi; cbn [outcome_state].
  - rewrite script_spec, integrity_input_plan_checked, bool_decide_false by done.
    change (integrity_input NoButton ?s) with s.
    by rewrite bool_decide_true.
  - rewrite script_spec, integrity_input_plan_checked, bool_decide_false by done.
    change (integrity_input NoButton ?s) with s.
    rewrite bool_decide_false by done. f_equal.
    unfold page_of, without_pdf. cbv zeta.
    cbn [plan_warning plan_selected recommended_area integrity_warning
         selected_area p2_integrity selections pdf].
    change (integrity_input NoButton ?s) with s.
    rewrite integrity_input_plan_checked.
    by rewrite (bool_decide_false (NoButton = GeneratePDF)).
Qed.

(** ** Clicks in the 1.7 table *)

Lemma click_checkbox_checkbox k k' (ss : session_state) :
  checkbox (click_checkbox k ss) k' =
    if bool_decide (k' = k) then negb (checkbox ss k) else checkbox ss k'.
Proof.
  unfold click_checkbox, checkbox at 1, session_get.
  case_bool_decide as Hk.
  - subst. by rewrite lookup_insert_eq.
  - by rewrite lookup_insert_ne.
Qed.

Lemma plan_row_key_inj ir jr :
  ir ∈ enumerate PLAN_ROWS → jr ∈ enumerate PLAN_ROWS →
  plan_row_key ir = plan_row_key jr → ir = jr.
Proof.
  intros Hi Hj Heq. destruct ir as [i r], jr as [j r'].
  unfold plan_row_key in Heq. simpl in Heq.
  apply plan_key_inj in Heq as [Hij _]. subst j.
  apply enumerate_elem in Hi. apply enumerate_elem in Hj.
  simpl in Hi, Hj. congruence.
Qed.

Lemma checkbox_plan_checked ss ir :
  ir ∈ enumerate PLAN_ROWS →
  checkbox ss (plan_row_key ir) = bool_decide (ir ∈ plan_checked ss).
Proof.
  intros Hir. unfold plan_checked, checked_rows.
  destruct (checkbox ss (plan_row_key ir)) eqn:Hc; symmetry.
  - apply bool_decide_eq_true, list_elem_of_filter. by rewrite Hc.
  - apply bool_decide_eq_false. rewrite list_elem_of_filter, Hc. by intros [[] _].
Qed.

(** The boxes of the 1.7 table after a click on one of them. *)
Lemma plan_checked_click ss jr :
  jr ∈ enumerate PLAN_ROWS →
  plan_checked (click_checkbox (plan_row_key jr) ss) =
    filter (λ ir, xorb (bool_decide (ir ∈ plan_checked ss)) (bool_decide (ir = jr)))
      (enumerate PLAN_ROWS).
Proof.
  intros Hjr. apply filter_ext_in. intros ir Hir.
  rewrite click_checkbox_checkbox, !checkbox_plan_checked by done.
  rewrite (bool_decide_ext (plan_row_key ir = plan_row_key jr) (ir = jr));
    last first.
  { split; [by apply plan_row_key_inj|by intros ->]. }
  destruct (bool_decide (ir = jr)) eqn:Heq.
  - apply bool_decide_eq_true in Heq as ->. by rewrite xorb_true_r.
  - by rewrite xorb_false_r.
Qed.

Lemma plan_click_table :
  Forall (λ jr,
    filter (λ ir, xorb (bool_decide (ir ∈ [])) (bool_decide (ir = jr)))
      (enumerate PLAN_ROWS) = [jr]
    ∧ Forall (λ ir0,
        filter (λ ir, xorb (bool_decide (ir ∈ [ir0])) (bool_decide (ir = jr)))
          (enumerate PLAN_ROWS) =
        if decide (jr = ir0) then []
        else if decide (jr.1 < ir0.1)%nat then [jr; ir0] else [ir0; jr])
      (enumerate PLAN_ROWS))
    (enumerate PLAN_ROWS).
Proof. apply (bool_decide_unpack _). by vm_compute. Qed.

(** X8.  With at most one row of the 1.7 table selected, a click on a row
    selects it when nothing was selected and deselects it when it was the
    selected row.  A click on another row leaves both boxes set, in table
    order, and the run raises before it assigns [plan_selected].  In every
    case the run writes nothing. *)
Theorem plan_click_on_second_row_raises (b : bool) (ss : session_state)
    (jr : nat * PlanRow) :
  jr ∈ enumerate PLAN_ROWS →
  (length (plan_checked ss) ≤ 1)%nat →
  let o := script NoButton b (click_checkbox (plan_row_key jr) ss) in
  outcome_state o = click_checkbox (plan_row_key jr) ss
  ∧ plan_checked (outcome_state o) =
      match head (plan_checked ss) with
      | None => [jr]
      | Some ir0 =>
          if decide (jr = ir0) then []
          else if decide (jr.1 < ir0.1)%nat then [jr; ir0] else [ir0; jr]
      end
  ∧ outcome_plan_selected o =
      match head (plan_checked ss) with
      | None => Some (Some jr.2)
      | Some ir0 => if decide (jr = ir0) then Some None else None
      end.
Proof.
  intros Hjr Hlen. cbv zeta.
  rewrite script_no_action_state by done.
  rewrite script_plan_selected, plan_checked_click by done.
  pose proof (proj1 (Forall_forall _ _) plan_click_table jr Hjr) as [Hnone Hone].
  split; [done|].
  destruct (plan_checked ss) as [|ir0 [|ir1 rest]] eqn:Hchecked;
    [| |simpl in Hlen; lia].
  - rewrite Hnone. cbn [head]. split; [done|].
    by rewrite bool_decide_false by (simpl; lia).
  - assert (ir0 ∈ enumerate PLAN_ROWS) as Hir0.
    { assert (ir0 ∈ plan_checked ss) as Hin by (rewrite Hchecked; by left).
      by apply list_elem_of_filter in Hin as [_ ?]. }
    rewrite (proj1 (Forall_forall _ _) Hone ir0 Hir0). cbn [head].
    split; [done|].
    destruct (decide (jr = ir0)) as [->|Hne].
    + by rewrite bool_decide_false by (simpl; lia).
    + destruct (decide (jr.1 < ir0.1)%nat);
        by rewrite bool_decide_true by (simpl; lia).
Qed.

Lemma plan_click_on_second_row_raises_witness :
  let ss : session_state := <["plan_row_1_Inconsistent_Patient_IDs" := true]> ∅ in
  let jr := (3%nat,
             {| Gap := "No FHIR Connection";
                Description := "Legacy EHR cannot use FHIR APIs for modern data exchange.";
                Suggested_Interface_Type := "FHIR API";
                Suggested_Fix := "Enable/Upgrade EHR FHIR";
                Reference := "ONC §170.315(g)(10) – API Exchange" |}) in
  let o := script NoButton false (click_checkbox (plan_row_key jr) ss) in
  (jr ∈ enumerate PLAN_ROWS ∧ (length (plan_checked ss) ≤ 1)%nat)
  ∧ outcome_plan_selected o = None
  ∧ (λ ir, Gap ir.2) <$> plan_checked (outcome_state o) =
      ["Inconsistent Patient IDs"; "No FHIR Connection"].
Proof.
  intros ss jr o.
  assert (jr ∈ enumerate PLAN_ROWS) as Hjr
    by (apply (bool_decide_unpack _); by vm_compute).
  assert (length (plan_checked ss) ≤ 1)%nat as Hlen
    by (apply (bool_decide_unpack _); by vm_compute).
  destruct (plan_click_on_second_row_raises false ss jr Hjr Hlen)
    as (_ & Hboxes & Hsel).
  split; [exact (conj Hjr Hlen)|]. split.
  - unfold o. rewrite Hsel. by vm_compute.
  - unfold o. rewrite Hboxes. by vm_compute.
Defined.

(** ** Clicks one after the other *)

Lemma click_checkbox_other k (ss : session_state) j :
  j ≠ k → click_checkbox k ss !! j = ss !! j.
Proof. intros Hne. unfold click_checkbox. by rewrite lookup_insert_ne. Qed.




(** ** The Select column of the 2.3 table *)

Lemma checked_rows_snoc {A} (key : A → string) ss (l : list A) x :
  checked_rows key ss (l ++ [x]) =
    (checked_rows key ss l ++ (if checkbox ss (key x) then [x] else []))%list.
Proof.
  unfold checked_rows. rewrite filter_app, filter_cons, filter_nil.
  by destruct (checkbox ss (key x)).
Qed.

Lemma integrity_cells_loop_spec ss rec_area (rows : list (nat * IntegrityRow)) :
  Forall (λ ir, Area ir.2 ≠ "") rows →
  NoDup ((λ ir, Area ir.2) <$> rows) →
  integrity_cells_loop ss rec_area rows =
    ((λ ir, Area ir.2) <$> last (checked_rows integrity_row_key ss rows),
     imap (select_parts ss rec_area rows) rows).
Proof.
  unfold integrity_cells_loop.
  induction rows as [|x l IH] using rev_ind; intros Hne Hnd; [done|].
  apply Forall_app in Hne as [Hne Hx]. rewrite Forall_singleton in Hx.
  rewrite fmap_app in Hnd. apply NoDup_app in Hnd as (Hnd & Hfresh & _).
  rewrite foldl_snoc, IH by done. cbn [fst snd].
  rewrite imap_app, checked_rows_snoc. cbn [imap].
  change (integrity_key x.1 x.2) with (integrity_row_key x).
  change (session_get ss (integrity_row_key x))
    with (checkbox ss (integrity_row_key x)).
  rewrite Nat.add_0_r.
  assert (imap (select_parts ss rec_area (l ++ [x])%list) l =
            imap (select_parts ss rec_area l) l) as ->.
  { apply imap_ext. intros i ir Hi. unfold select_parts.
    apply lookup_lt_Some in Hi. by rewrite take_app_le by lia. }
  unfold select_parts.
  rewrite (take_ge (l ++ [x])%list) by (rewrite length_app; simpl; lia).
  rewrite checked_rows_snoc.
  destruct (checkbox ss (integrity_row_key x)) eqn:Hc.
  - rewrite last_snoc. cbn [fmap option_fmap option_map].
    rewrite (bool_decide_true (Some (Area x.2) = Some (Area x.2))) by done.
    rewrite (bool_decide_false (_ ++ [x] = [])%list); last first.
    { intros Hnil. apply (f_equal length) in Hnil.
      rewrite length_app in Hnil. simpl in Hnil. lia. }
    unfold truthy_str. rewrite (bool_decide_false (Area x.2 = "")) by done.
    done.
  - rewrite !app_nil_r.
    destruct (last (checked_rows integrity_row_key ss l)) as [y|] eqn:Hlast.
    + cbn [fmap option_fmap option_map].
      assert (y ∈ l) as Hy.
      { apply last_Some_elem_of in Hlast.
        by apply list_elem_of_filter in Hlast as [_ ?]. }
      rewrite (bool_decide_false (Some (Area y.2) = Some (Area x.2))); last first.
      { intros [= Heq]. apply (Hfresh (Area y.2)).
        - by apply (list_elem_of_fmap_2 (λ ir, Area ir.2)).
        - rewrite Heq. by left. }
      rewrite (bool_decide_false (checked_rows _ _ _ = []))
        by (intros Hnil; by rewrite Hnil in Hlast).
      unfold truthy_str. rewrite (bool_decide_false (Area y.2 = "")); [done|].
      by apply (proj1 (Forall_forall _ _) Hne y).
    + apply last_None in Hlast. rewrite Hlast.
      by rewrite (bool_decide_true ([] = [])).
Qed.

Lemma integrity_rows_nonempty : Forall (λ ir : nat * IntegrityRow, Area ir.2 ≠ "")
                                  (enumerate INTEGRITY_ROWS).
Proof. apply Forall_forall. intros ir Hir. by apply integrity_rows_area. Qed.

(** X10.  In a run of the 2.3 table on any session state, the Select column
    of a row shows the check mark exactly when that row's own box is set,
    and the "Recommended" badge exactly when the row's area is the
    recommended one and no box is set in that row or in a row above it; rows
    below are not looked at.  The caption above the table is shown exactly
    when no box of the table is set at all and there is a recommendation. *)
Theorem select_column_marks (ss : session_state) (rec_area : option string) :
  (integrity_cells_loop ss rec_area (enumerate INTEGRITY_ROWS)).2 =
    imap (select_parts ss rec_area (enumerate INTEGRITY_ROWS))
      (enumerate INTEGRITY_ROWS)
  ∧ (integrity_cells_loop ss rec_area (enumerate INTEGRITY_ROWS)).1 =
      (integrity_loop ss (enumerate INTEGRITY_ROWS)).2
  ∧ recommendation_caption ss rec_area =
      if bool_decide (integrity_checked ss = []) && truthy_str rec_area
      then Some ("**Recommended based on your selected gap:** "
                 ++ default "" rec_area)
      else None.
Proof.
  rewrite integrity_cells_loop_spec, integrity_loop_spec
    by (apply integrity_rows_nonempty || apply integrity_areas_NoDup).
  split; [done|]. split; [done|].
  unfold recommendation_caption.
  assert (existsb (λ ir, session_get ss (integrity_key ir.1 ir.2))
            (enumerate INTEGRITY_ROWS) =
          negb (bool_decide (integrity_checked ss = []))) as ->;
    [|by rewrite negb_involutive].
  unfold integrity_checked, checked_rows.
  induction (enumerate INTEGRITY_ROWS) as [|ir l IH]; [done|].
  cbn [existsb]. rewrite filter_cons, IH.
  change (session_get ss (integrity_key ir.1 ir.2))
    with (checkbox ss (integrity_row_key ir)).
  by destruct (checkbox ss (integrity_row_key ir)).
Qed.

(** ** The appendix of the exported document *)

Lemma foldl_snoc_fmap {A B} (f : A → B) (l : list A) :
  foldl (λ acc x, (acc ++ [f x])%list) [] l = f <$> l.
Proof.
  induction l as [|x l IH] using rev_ind; [done|].
  by rewrite foldl_snoc, IH, fmap_app.
Qed.

Lemma selections_of_include_all plan_sel p2 b :
  selections_of plan_sel p2 b !! "include_all_options" = Some (PyBool b).
Proof. unfold selections_of. destruct plan_sel; by simplify_map_eq. Qed.

Lemma appendix_mark_table :
  Forall (λ r,
    bool_decide (Some (PyStr (Gap r)) = Some (PyStr "— choose —"))
    && bool_decide (Some (PyStr (Suggested_Interface_Type r)) = Some (PyStr "— select —"))
    && bool_decide (Some (PyStr (Suggested_Fix r)) = Some (PyStr "— choose —")) = false
    ∧ Forall (λ row,
        bool_decide (Some (PyStr (Gap r)) = Some (PyStr (Gap row)))
        && bool_decide (Some (PyStr (Suggested_Interface_Type r))
                        = Some (PyStr (Suggested_Interface_Type row)))
        && bool_decide (Some (PyStr (Suggested_Fix r)) = Some (PyStr (Suggested_Fix row)))
        = bool_decide (Some row = Some r)) PLAN_ROWS) PLAN_ROWS.
Proof. apply (bool_decide_unpack _). by vm_compute. Qed.

(** X11.  The document exported by a run that reaches its last line has the
    appendix exactly when the appendix box is ticked.  It then lists every
    row of the 1.7 table in table order, and the "Selected" column holds the
    tick for the row the run reports as selected and is empty for every
    other row; with no row selected no row is ticked. *)
Theorem appendix_ticks_the_selected_row (pressed : button) (b : bool)
    (ss ss' : session_state) (pg : page) :
  script pressed b ss = Finished ss' pg →
  build_pdf_appendix (selections pg) =
    if b then
      Some ((λ r, [PyStr (Gap r); PyStr (Suggested_Interface_Type r);
                   PyStr (Suggested_Fix r); PyStr (Reference r);
                   PyStr (if bool_decide (plan_selected pg = Some r)
                          then "✓" else "")]) <$> PLAN_ROWS)
    else None.
Proof.
  intros Hrun.
  destruct (finished_page _ _ _ _ _ Hrun)
    as (_ & _ & _ & _ & _ & _ & _ & _ & Hsels & _).
  destruct (finished_page_valid _ _ _ _ _ Hrun) as (_ & _ & Hrowv).
  rewrite Hsels. unfold build_pdf_appendix.
  rewrite selections_of_include_all.
  destruct b; [|done]. cbn [from_option truthy_val]. f_equal.
  rewrite (foldl_snoc_fmap (λ r, [_; _; _; _; _])).
  destruct (selections_of_lookups (plan_selected pg) (p2_integrity pg) true)
    as (_ & -> & -> & -> & _).
  apply list_fmap_ext. intros i r Hr.
  apply list_elem_of_lookup_2 in Hr.
  destruct (proj1 (Forall_forall _ _) appendix_mark_table r Hr) as [Hnone Hsome].
  do 5 f_equal.
  destruct (plan_selected pg) as [row|] eqn:Hrow; cbn [from_option].
  - by rewrite (proj1 (Forall_forall _ _) Hsome row (Hrowv row eq_refl)).
  - by rewrite Hnone.
Qed.

Lemma appendix_ticks_the_selected_row_witness :
  let ss : session_state := <["plan_row_1_Inconsistent_Patient_IDs" := true]> ∅ in
  ∃ pg,
    script GeneratePDF true ss = Finished ss pg
    ∧ (λ cells, last cells) <$> default [] (build_pdf_appendix (selections pg)) =
        [Some (PyStr ""); Some (PyStr "✓"); Some (PyStr ""); Some (PyStr "");
         Some (PyStr "")].
Proof.
  intros ss.
  assert (script GeneratePDF true ss = Finished ss (page_of GeneratePDF true ss))
    as Hrun by (by vm_compute).
  exists (page_of GeneratePDF true ss). split; [exact Hrun|].
  rewrite (appendix_ticks_the_selected_row _ _ _ _ _ Hrun). by vm_compute.
Defined.

(** ** The quick actions one after the other *)

Lemma write_rows_lookup (val : nat * IntegrityRow → bool) (ss : session_state) k :
  foldl (λ st ir, <[integrity_row_key ir := val ir]> st) ss
    (enumerate INTEGRITY_ROWS) !! k =
  match list_find (λ ir, integrity_row_key ir = k) (enumerate INTEGRITY_ROWS) with
  | Some (_, ir) => Some (val ir)
  | None => ss !! k
  end.
Proof.
  destruct (list_find _ _) as [[i ir]|] eqn:Hfind.
  - apply list_find_Some in Hfind as (Hi & <- & _).
    apply (foldl_insert_set integrity_row_key val); [apply integrity_keys_NoDup|].
    by eapply list_elem_of_lookup_2.
  - apply list_find_None in Hfind.
    apply (foldl_insert_frame integrity_row_key val).
    intros Hk. apply list_elem_of_fmap in Hk as (ir & -> & Hir).
    by apply (proj1 (Forall_forall _ _) Hfind ir Hir).
Qed.

Lemma use_recommended_lookup rec_area (ss : session_state) k :
  use_recommended rec_area ss !! k =
    match list_find (λ ir, integrity_row_key ir = k) (enumerate INTEGRITY_ROWS) with
    | Some (_, ir) => Some (bool_decide (Some (Area ir.2) = rec_area))
    | None => ss !! k
    end.
Proof.
  apply (write_rows_lookup (λ ir, bool_decide (Some (Area ir.2) = rec_area))).
Qed.

Lemma clear_selection_lookup (ss : session_state) k :
  clear_selection ss !! k =
    match list_find (λ ir, integrity_row_key ir = k) (enumerate INTEGRITY_ROWS) with
    | Some _ => Some false
    | None => ss !! k
    end.
Proof.
  transitivity
    (match list_find (λ ir, integrity_row_key ir = k) (enumerate INTEGRITY_ROWS) with
     | Some (_, ir) => Some ((λ _ : nat * IntegrityRow, false) ir)
     | None => ss !! k
     end).
  - apply (write_rows_lookup (λ _, false)).
  - by destruct (list_find _ _) as [[]|].
Qed.

(** X12.  The two quick actions overwrite the whole 2.3 table, so the later
    one wins whatever came before; and "Use recommended" with an area that
    no row of the table has leaves the table as "Clear selection" does. *)
Theorem quick_actions_overwrite (rec_area rec_area' : option string)
    (ss : session_state) :
  use_recommended rec_area (use_recommended rec_area' ss) = use_recommended rec_area ss
  ∧ use_recommended rec_area (clear_selection ss) = use_recommended rec_area ss
  ∧ clear_selection (use_recommended rec_area ss) = clear_selection ss
  ∧ ((∀ row, row ∈ INTEGRITY_ROWS → Some (Area row) ≠ rec_area') →
     use_recommended rec_area' ss = clear_selection ss).
Proof.
  repeat split; [| | |intros Hunknown]; apply map_eq; intros k;
    rewrite ?use_recommended_lookup, ?clear_selection_lookup,
            ?use_recommended_lookup;
    destruct (list_find _ _) as [[i ir]|] eqn:Hfind; try done.
  f_equal. apply bool_decide_false.
  apply list_find_Some in Hfind as (Hi & _ & _).
  apply Hunknown. apply list_elem_of_lookup_2 in Hi.
  apply enumerate_elem in Hi. by eapply list_elem_of_lookup_2.
Qed.

Lemma quick_actions_overwrite_witness :
  let ss : session_state := <["p2_integrity_2_Error_Detection_Alerts" := true]> ∅ in
  (∀ row, row ∈ INTEGRITY_ROWS → Some (Area row) ≠ Some "No such area")
  ∧ use_recommended (Some "No such area") ss = clear_selection ss.
Proof.
  intros ss.
  assert (∀ row, row ∈ INTEGRITY_ROWS → Some (Area row) ≠ Some "No such area")
    as Hunknown.
  { apply Forall_forall. apply (bool_decide_unpack _). by vm_compute. }
  destruct (quick_actions_overwrite None (Some "No such area") ss)
    as (_ & _ & _ & Hsame).
  exact (conj Hunknown (Hsame Hunknown)).
Defined.

(** ** Any observed batch *)

(** X13.  A run on the values the widgets report writes nothing, whatever
    they are: the session state it leaves is the reported batch over the
    state before.  The run reaches its last line exactly when at most one
    box is set in each table of that state. *)
Theorem observed_batch_is_kept (b : bool) (batch ss : session_state) :
  let r := step (Observe batch) (ss, b) in
  r.1 = (batch ∪ ss, b)
  ∧ r.2 = script NoButton b (batch ∪ ss)
  ∧ ((∃ pg, r.2 = Finished (batch ∪ ss) pg)
     ↔ (length (plan_checked (batch ∪ ss)) ≤ 1)%nat
       ∧ (length (integrity_checked (batch ∪ ss)) ≤ 1)%nat).
Proof.
  cbv zeta. cbn [step fst snd].
  rewrite script_no_action_state by done.
  split; [done|]. split; [done|]. split.
  - intros [pg Hrun]. by apply script_finished in Hrun as (Hp & Hi & _).
  - intros [Hp Hi]. exists (page_of NoButton b (batch ∪ ss)).
    by apply script_finishes.
Qed.

(** ** The assignments of the quick actions *)


